(** * Session guard of the auth package: a shallow embedding

    The development follows [modules/session_guard/guard.ts].  The guard is a
    per-request object with a handful of mutable flags; it talks to four
    collaborators: the session store, the request/response cookies, the event
    emitter and the user provider.  Every method of the class becomes a
    computation in a state-and-error monad over the pair (guard, world); a
    thrown exception is an [Err] result and leaves the mutations done so far
    in place, exactly as a JavaScript [throw] does. *)

From Stdlib Require Import ZArith String Ascii List Bool Lia.
From stdpp Require Import base option gmap strings pretty.
Import ListNotations.

Set Implicit Arguments.
Local Open Scope string_scope.
Local Open Scope Z_scope.

(** ** Values shared by all collaborators *)

(** A user identifier: [string | number | BigInt] in the source.  Numbers are
    taken as integers. *)
Inductive Ident :=
| IdStr (s : string)
| IdNum (n : Z)
| IdBig (n : Z).

(** JavaScript truthiness of an identifier, as tested by [if (loggedInUserId)]. *)
Definition truthy_id (i : Ident) : bool :=
  match i with
  | IdStr s => negb (String.eqb s EmptyString)
  | IdNum n => negb (n =? 0)
  | IdBig n => negb (n =? 0)
  end.

(** The double-quote character, for the messages that contain it. *)
Definition dq : string :=
  String (Ascii.Ascii false true false false false true false false) EmptyString.

(** JavaScript truthiness of a string, as tested by [if (rememberMeCookie)]. *)
Definition truthy_str (s : string) : bool := negb (String.eqb s EmptyString).

(** JavaScript truthiness of the values of a type, as tested by [!x]. *)
Class Truthy (A : Type) := truthy : A -> bool.

(** A possibly absent value that passes [if (x)] only when present and truthy. *)
Definition if_truthy {A} (truthy : A -> bool) (x : option A) : option A :=
  match x with
  | Some a => if truthy a then Some a else None
  | None => None
  end.

(** A duration: [string | number], e.g. ['2years']. *)
Inductive Duration :=
| DStr (s : string)
| DNum (n : Z).

Definition truthy_duration (d : Duration) : bool :=
  match d with
  | DStr s => negb (String.eqb s EmptyString)
  | DNum n => negb (n =? 0)
  end.

(** The exceptions that travel through the guard.  [E_UNAUTHORIZED_ACCESS] and
    [E_INVALID_CREDENTIALS] carry their message and the [guardDriverName]
    option; [RuntimeException] and [Exception] come from the framework core;
    [TypeError] is what calling an absent method raises; [OtherError] stands
    for anything else a collaborator may reject with. *)
Inductive Error :=
| E_UNAUTHORIZED_ACCESS (message guardDriverName : string)
| E_INVALID_CREDENTIALS (message guardDriverName : string)
| RuntimeException (message : string)
| Exception (message : string)
| TypeError (message : string)
| OtherError (name message : string).

(** [error instanceof E_UNAUTHORIZED_ACCESS] *)
Definition instanceof_E_UNAUTHORIZED_ACCESS (e : Error) : bool :=
  match e with
  | E_UNAUTHORIZED_ACCESS _ _ => true
  | _ => false
  end.

Inductive Result (A : Type) :=
| Ok (a : A)
| Err (e : Error).
Arguments Ok {A} a.
Arguments Err {A} e.

(** What the runtime supplies: the digest, the random source, the cookie
    codec, the duration parser and the time zone of the process.  None of
    them is defined in the guard.  [localTime] is the local time value of a
    time value and [utc] the time value of a local one (LocalTime and UTC of
    the language standard), both in milliseconds. *)
Record Platform := {
  digest : string -> string;
  randomString : nat -> string;
  encode : string -> string -> string;
  decode : string -> option (string * string);
  seconds : Duration -> Z;
  localTime : Z -> Z;
  utc : Z -> Z
}.

(** ** Remember-me token *)

Module RememberMeToken.

Record t := {
  series : string;
  userId : Ident;
  hash : string;
  guard : string;
  createdAt : Z;
  updatedAt : Z;
  expiresAt : Z;
  value : option string
}.

(** Modelled from the spec: [remember_me_token.js] is not part of the
    sources.  "Generates a fresh random series and secret, computes hash,
    sets expiresAt = now + ttl"; the value is the encoded, secret-bearing
    cookie value.  Times are milliseconds. *)
Definition create (P : Platform) (now : Z) (newSeries newSecret : string)
    (uid : Ident) (ttl : Duration) (guardName : string) : t :=
  {| series := newSeries;
     userId := uid;
     hash := digest P newSecret;
     guard := guardName;
     createdAt := now;
     updatedAt := now;
     expiresAt := now + 1000 * seconds P ttl;
     value := Some (encode P newSeries newSecret) |}.

(** Modelled from the spec: [remember_me_token.js] is not part of the
    sources.  "Hashes candidate and compares to stored hash." *)
Definition verify (P : Platform) (tok : t) (candidate : string) : bool :=
  String.eqb (digest P candidate) (hash tok).

(** Modelled from the spec: [remember_me_token.js] is not part of the
    sources.  "Regenerates value/hash, bumps updatedAt and expiresAt." *)
Definition refresh (P : Platform) (now : Z) (newSecret : string)
    (ttl : Duration) (tok : t) : t :=
  {| series := series tok;
     userId := userId tok;
     hash := digest P newSecret;
     guard := guard tok;
     createdAt := createdAt tok;
     updatedAt := now;
     expiresAt := now + 1000 * seconds P ttl;
     value := Some (encode P (series tok) newSecret) |}.

End RememberMeToken.

(** ** The session store *)

Record Session := {
  values : gmap string Ident;
  sessionId : string
}.

Section SessionGuard.

Variables User DB : Type.
Context {truthyUser : Truthy User}.

(** The adapter between provider and guard. *)
Record SessionGuardUser := {
  getId : Ident;
  getOriginal : User
}.

(** A provider call is awaited: it resolves or rejects, and may change the
    backing store. *)
Definition Async (A : Type) : Type := DB -> Result A * DB.

(** The provider contract as the guard uses it; the last four methods are
    optional and probed at run time. *)
Record Provider := {
  createUserForGuard : User -> Async SessionGuardUser;
  findById : Ident -> Async (option SessionGuardUser);
  providerVerifyCredentials : string -> string -> Async (option SessionGuardUser);
  createRememberMeToken : option (RememberMeToken.t -> Async unit);
  findRememberMeTokenBySeries : option (string -> Async (option RememberMeToken.t));
  providerRecycleRememberMeToken : option (RememberMeToken.t -> Async unit);
  deleteRememberMeTokenBySeries : option (string -> Async unit)
}.

Record SessionGuardConfig := {
  rememberMeTokenAge : option Duration
}.

(** Events, with the payload fields other than [ctx].  A payload is recorded
    as it is when the event is emitted. *)
Inductive Event :=
| login_attempted (guardName : string) (u : User)
| login_succeeded (guardName : string) (u : User) (sid : string)
| login_failed (guardName : string) (error : Error)
| credentials_verified (guardName uid : string) (u : User)
| authentication_attempted (guardName sid : string)
| authentication_succeeded (guardName sid : string) (u : option User)
    (rememberMeToken : option RememberMeToken.t)
| authentication_failed (guardName : string) (error : Error) (sid : string)
| logged_out (guardName : string) (u : option User) (sid : string).

Inductive ProviderCall :=
| CallCreateUserForGuard (u : User)
| CallFindById (id : Ident)
| CallVerifyCredentials (uid password : string)
| CallCreateRememberMeToken (tok : RememberMeToken.t)
| CallFindRememberMeTokenBySeries (s : string)
| CallRecycleRememberMeToken (tok : RememberMeToken.t)
| CallDeleteRememberMeTokenBySeries (s : string).

(** Everything the guard does to the outside, in the order it does it. *)
Inductive Effect :=
| Emit (ev : Event)
| SessionPut (key : string) (v : Ident)
| SessionForget (key : string)
| SessionRegenerate
| EncryptedCookie (key val : string) (maxAge : Duration)
| ClearCookie (key : string)
| Call (c : ProviderCall).

(** The outcome for one cookie on the response. *)
Inductive ResponseCookie :=
| CookieSet (val : string) (maxAge : Duration)
| CookieCleared.

Record Guard := {
  name : string;
  config : SessionGuardConfig;
  userProvider : Provider;
  authenticationAttempted : bool;
  isLoggedOut : bool;
  isAuthenticated : bool;
  viaRemember : bool;
  user : option User
}.

(** The HTTP context and what lies behind it.  [hasSession] is
    ['session' in ctx]; [now] is what [new Date()] reads, in milliseconds,
    fixed for the duration of a call; [entropy] counts the random draws. *)
Record World := {
  hasSession : bool;
  session : Session;
  requestCookies : gmap string string;
  responseCookies : gmap string ResponseCookie;
  db : DB;
  now : Z;
  entropy : nat;
  trace : list Effect
}.

(** A guard as the constructor leaves it. *)
Definition newGuard (n : string) (c : SessionGuardConfig) (p : Provider) : Guard :=
  {| name := n; config := c; userProvider := p;
     authenticationAttempted := false; isLoggedOut := false;
     isAuthenticated := false; viaRemember := false; user := None |}.

(** *** Field updates *)

Definition set_authenticationAttempted (b : bool) (g : Guard) : Guard :=
  {| name := name g; config := config g; userProvider := userProvider g;
     authenticationAttempted := b; isLoggedOut := isLoggedOut g;
     isAuthenticated := isAuthenticated g; viaRemember := viaRemember g;
     user := user g |}.

Definition set_isLoggedOut (b : bool) (g : Guard) : Guard :=
  {| name := name g; config := config g; userProvider := userProvider g;
     authenticationAttempted := authenticationAttempted g; isLoggedOut := b;
     isAuthenticated := isAuthenticated g; viaRemember := viaRemember g;
     user := user g |}.

Definition set_isAuthenticated (b : bool) (g : Guard) : Guard :=
  {| name := name g; config := config g; userProvider := userProvider g;
     authenticationAttempted := authenticationAttempted g;
     isLoggedOut := isLoggedOut g; isAuthenticated := b;
     viaRemember := viaRemember g; user := user g |}.

Definition set_viaRemember (b : bool) (g : Guard) : Guard :=
  {| name := name g; config := config g; userProvider := userProvider g;
     authenticationAttempted := authenticationAttempted g;
     isLoggedOut := isLoggedOut g; isAuthenticated := isAuthenticated g;
     viaRemember := b; user := user g |}.

Definition set_user (u : option User) (g : Guard) : Guard :=
  {| name := name g; config := config g; userProvider := userProvider g;
     authenticationAttempted := authenticationAttempted g;
     isLoggedOut := isLoggedOut g; isAuthenticated := isAuthenticated g;
     viaRemember := viaRemember g; user := u |}.

Definition set_session (s : Session) (w : World) : World :=
  {| hasSession := hasSession w; session := s;
     requestCookies := requestCookies w; responseCookies := responseCookies w;
     db := db w; now := now w; entropy := entropy w; trace := trace w |}.

Definition set_responseCookies (c : gmap string ResponseCookie) (w : World) : World :=
  {| hasSession := hasSession w; session := session w;
     requestCookies := requestCookies w; responseCookies := c;
     db := db w; now := now w; entropy := entropy w; trace := trace w |}.

Definition set_db (d : DB) (w : World) : World :=
  {| hasSession := hasSession w; session := session w;
     requestCookies := requestCookies w; responseCookies := responseCookies w;
     db := d; now := now w; entropy := entropy w; trace := trace w |}.

Definition set_entropy (n : nat) (w : World) : World :=
  {| hasSession := hasSession w; session := session w;
     requestCookies := requestCookies w; responseCookies := responseCookies w;
     db := db w; now := now w; entropy := n; trace := trace w |}.

Definition record (e : Effect) (w : World) : World :=
  {| hasSession := hasSession w; session := session w;
     requestCookies := requestCookies w; responseCookies := responseCookies w;
     db := db w; now := now w; entropy := entropy w;
     trace := (trace w ++ [e])%list |}.

(** *** The monad *)

Definition St : Type := Guard * World.
Definition M (A : Type) : Type := St -> Result A * St.

Definition ret {A} (a : A) : M A := fun s => (Ok a, s).
Definition throw {A} (e : Error) : M A := fun s => (Err e, s).
Definition bind {A B} (m : M A) (k : A -> M B) : M B :=
  fun s => match m s with
           | (Ok a, s') => k a s'
           | (Err e, s') => (Err e, s')
           end.

Definition this : M Guard := fun s => (Ok (fst s), s).
Definition ctx : M World := fun s => (Ok (snd s), s).
Definition assign (f : Guard -> Guard) : M unit :=
  fun s => (Ok tt, (f (fst s), snd s)).
Definition effect (f : World -> World) : M unit :=
  fun s => (Ok tt, (fst s, f (snd s))).

Notation "x <- m ;; k" := (bind m (fun x => k))
  (at level 100, m at next level, right associativity).
Notation "m ;; k" := (bind m (fun _ => k))
  (at level 100, right associativity).

(** [try { m } catch (error) { h error }] *)
Definition try_catch {A} (m : M A) (h : Error -> M A) : M A :=
  fun s => match m s with
           | (Ok a, s') => (Ok a, s')
           | (Err e, s') => h e s'
           end.

Variable P : Platform.

(** *** Collaborators *)

Definition emit (ev : Event) : M unit := effect (record (Emit ev)).

(** [await provider.method(...)]: the call is logged, runs against the
    backing store, and its rejection is rethrown. *)
Definition await {A} (c : ProviderCall) (call : Async A) : M A :=
  fun s => let (r, d) := call (db (snd s)) in
           (r, (fst s, set_db d (record (Call c) (snd s)))).

(** One draw from the random source. *)
Definition random : M string :=
  w <- ctx ;;
  effect (set_entropy (S (entropy w))) ;;
  ret (randomString P (entropy w)).

Definition sessionGet (key : string) : M (option Ident) :=
  w <- ctx ;; ret (values (session w) !! key).

Definition sessionPut (key : string) (v : Ident) : M unit :=
  effect (fun w =>
    record (SessionPut key v)
      (set_session {| values := <[key := v]> (values (session w));
                      sessionId := sessionId (session w) |} w)).

Definition sessionForget (key : string) : M unit :=
  effect (fun w =>
    record (SessionForget key)
      (set_session {| values := delete key (values (session w));
                      sessionId := sessionId (session w) |} w)).

(** [session.regenerate()]: the store keeps its values under a new id. *)
Definition sessionRegenerate : M unit :=
  id <- random ;;
  effect (fun w =>
    record SessionRegenerate
      (set_session {| values := values (session w); sessionId := id |} w)).

(** [session.sessionId], read through the reference held by the method. *)
Definition sessionIdNow : M string :=
  w <- ctx ;; ret (sessionId (session w)).

Definition requestEncryptedCookie (key : string) : M (option string) :=
  w <- ctx ;; ret (requestCookies w !! key).

Definition responseEncryptedCookie (key val : string) (maxAge : Duration) : M unit :=
  effect (fun w =>
    record (EncryptedCookie key val maxAge)
      (set_responseCookies (<[key := CookieSet val maxAge]> (responseCookies w)) w)).

Definition responseClearCookie (key : string) : M unit :=
  effect (fun w =>
    record (ClearCookie key)
      (set_responseCookies (<[key := CookieCleared]> (responseCookies w)) w)).

(** *** The guard *)

Definition driverName : string := "session".

Definition sessionKeyName (g : Guard) : string := "auth_" +:+ name g.
Definition rememberMeKeyName (g : Guard) : string := "remember_" +:+ name g.

(** [this.#config.rememberMeTokenAge || '2years'] *)
Definition tokenAge (g : Guard) : Duration :=
  match rememberMeTokenAge (config g) with
  | Some d => if truthy_duration d then d else DStr "2years"
  | None => DStr "2years"
  end.

Definition getSession : M Session :=
  w <- ctx ;;
  if hasSession w then ret (session w)
  else throw (RuntimeException
    ("Cannot authenticate user. Install and configure " +:+ dq +:+
     "@adonisjs/session" +:+ dq +:+ " package")).

Definition loginFailed : M Error :=
  g <- this ;;
  let error := E_INVALID_CREDENTIALS "Invalid user credentails" driverName in
  emit (login_failed (name g) error) ;;
  ret error.

Definition authenticationFailed (sid : string) : M Error :=
  g <- this ;;
  let error := E_UNAUTHORIZED_ACCESS "Invalid or expired user session" driverName in
  emit (authentication_failed (name g) error sid) ;;
  ret error.

Definition authenticationSucceeded (sid : string)
    (rememberMeToken : option RememberMeToken.t) : M unit :=
  assign (set_isAuthenticated true) ;;
  assign (set_isLoggedOut false) ;;
  assign (set_viaRemember (bool_decide (is_Some rememberMeToken))) ;;
  g <- this ;;
  emit (authentication_succeeded (name g) sid (user g) rememberMeToken).

Definition createSessionForUser (uid : Ident) : M unit :=
  g <- this ;;
  _ <- getSession ;;
  sessionPut (sessionKeyName g) uid ;;
  sessionRegenerate.

Definition createRememberMeCookie (val : string) : M unit :=
  g <- this ;;
  responseEncryptedCookie (rememberMeKeyName g) val (tokenAge g).

(** [new Date(token.updatedAt)] followed by
    [setSeconds(getSeconds() + 60)]: the seconds field of the local time is
    raised by 60 and the result is read back as a time value.  Invalid dates
    and the clipping of the time range are left out. *)
Definition updatedAtWithBuffer (token : RememberMeToken.t) : Z :=
  utc P (localTime P (RememberMeToken.updatedAt token) + 60 * 1000).

(** The token is a mutable object in the source; the computation returns
    the state it is left in. *)
Definition recycleRememberMeToken (token : RememberMeToken.t)
    (rememberMeCookie : string) : M RememberMeToken.t :=
  w <- ctx ;;
  if now w >? updatedAtWithBuffer token then
    g <- this ;;
    secret <- random ;;
    let token' := RememberMeToken.refresh P (now w) secret (tokenAge g) token in
    match providerRecycleRememberMeToken (userProvider g) with
    | None => throw (TypeError "recycleRememberMeToken is not a function")
    | Some recycle =>
        await (CallRecycleRememberMeToken token') (recycle token') ;;
        match RememberMeToken.value token' with
        | None => throw (TypeError "Cannot read properties of undefined")
        | Some released => createRememberMeCookie released ;; ret token'
        end
    end
  else
    createRememberMeCookie rememberMeCookie ;; ret token.

Definition authenticateViaId (loggedInUserId : Ident) (sid : string) : M User :=
  g <- this ;;
  providerUser <- await (CallFindById loggedInUserId)
                    (findById (userProvider g) loggedInUserId) ;;
  match providerUser with
  | None => e <- authenticationFailed sid ;; throw e
  | Some providerUser =>
      assign (set_user (Some (getOriginal providerUser))) ;;
      authenticationSucceeded sid None ;;
      ret (getOriginal providerUser)
  end.

Definition authenticateViaRememberCookie (rememberMeCookie sid : string) : M User :=
  g <- this ;;
  match findRememberMeTokenBySeries (userProvider g),
        providerRecycleRememberMeToken (userProvider g) with
  | Some find, Some _ =>
      match decode P rememberMeCookie with
      | None => e <- authenticationFailed sid ;; throw e
      | Some (decodedSeries, decodedValue) =>
          token <- await (CallFindRememberMeTokenBySeries decodedSeries)
                     (find decodedSeries) ;;
          match token with
          | None => e <- authenticationFailed sid ;; throw e
          | Some token =>
              if negb (RememberMeToken.verify P token decodedValue)
                 || negb (String.eqb (RememberMeToken.guard token) (name g))
              then e <- authenticationFailed sid ;; throw e
              else
                providerUser <- await (CallFindById (RememberMeToken.userId token))
                    (findById (userProvider g) (RememberMeToken.userId token)) ;;
                match providerUser with
                | None => e <- authenticationFailed sid ;; throw e
                | Some providerUser =>
                    createSessionForUser (getId providerUser) ;;
                    assign (set_user (Some (getOriginal providerUser))) ;;
                    authenticationSucceeded sid (Some token) ;;
                    recycleRememberMeToken token rememberMeCookie ;;
                    ret (getOriginal providerUser)
                end
          end
      end
  | _, _ => e <- authenticationFailed sid ;; throw e
  end.

Definition getUserOrFail : M User :=
  g <- this ;;
  match if_truthy truthy (user g) with
  | None => throw (E_UNAUTHORIZED_ACCESS "Invalid or expired user session" driverName)
  | Some u => ret u
  end.

Definition verifyCredentials (uid password : string) : M User :=
  g <- this ;;
  providerUser <- await (CallVerifyCredentials uid password)
                    (providerVerifyCredentials (userProvider g) uid password) ;;
  match providerUser with
  | None => e <- loginFailed ;; throw e
  | Some providerUser =>
      let u := getOriginal providerUser in
      emit (credentials_verified (name g) uid u) ;;
      ret u
  end.

Definition login (u : User) (remember : bool) : M User :=
  g <- this ;;
  emit (login_attempted (name g) u) ;;
  _ <- getSession ;;
  providerUser <- await (CallCreateUserForGuard u)
                    (createUserForGuard (userProvider g) u) ;;
  let uid := getId providerUser in
  (if remember then
     match createRememberMeToken (userProvider g) with
     | None => throw (Exception
         ("Cannot use " +:+ dq +:+ "rememberMe" +:+ dq +:+
          " feature. The provider does not implement the " +:+ dq +:+
          "createRememberMeToken" +:+ dq +:+ " method"))
     | Some create =>
         w <- ctx ;;
         newSeries <- random ;;
         newSecret <- random ;;
         let token := RememberMeToken.create P (now w) newSeries newSecret
                        uid (tokenAge g) (name g) in
         await (CallCreateRememberMeToken token) (create token) ;;
         match RememberMeToken.value token with
         | None => throw (TypeError "Cannot read properties of undefined")
         | Some released => createRememberMeCookie released
         end
     end
   else responseClearCookie (rememberMeKeyName g)) ;;
  createSessionForUser uid ;;
  assign (set_user (Some u)) ;;
  assign (set_isLoggedOut false) ;;
  sid <- sessionIdNow ;;
  emit (login_succeeded (name g) u sid) ;;
  ret u.

Definition attempt (uid password : string) (remember : bool) : M User :=
  u <- verifyCredentials uid password ;;
  login u remember.

Definition loginViaId (uid : Ident) (remember : bool) : M User :=
  g <- this ;;
  providerUser <- await (CallFindById uid) (findById (userProvider g) uid) ;;
  match providerUser with
  | None => e <- loginFailed ;; throw e
  | Some providerUser => login (getOriginal providerUser) remember
  end.

Definition authenticate : M User :=
  g <- this ;;
  if authenticationAttempted g then getUserOrFail
  else
    assign (set_authenticationAttempted true) ;;
    _ <- getSession ;;
    sid <- sessionIdNow ;;
    emit (authentication_attempted (name g) sid) ;;
    loggedInUserId <- sessionGet (sessionKeyName g) ;;
    match if_truthy truthy_id loggedInUserId with
    | Some loggedInUserId => authenticateViaId loggedInUserId sid
    | None =>
        rememberMeCookie <- requestEncryptedCookie (rememberMeKeyName g) ;;
        match if_truthy truthy_str rememberMeCookie with
        | Some rememberMeCookie => authenticateViaRememberCookie rememberMeCookie sid
        | None => e <- authenticationFailed sid ;; throw e
        end
    end.

Definition check : M bool :=
  try_catch (authenticate ;; ret true)
    (fun error =>
       if instanceof_E_UNAUTHORIZED_ACCESS error then ret false
       else throw error).

Definition logout : M unit :=
  g <- this ;;
  _ <- getSession ;;
  rememberMeCookie <- requestEncryptedCookie (rememberMeKeyName g) ;;
  sessionForget (sessionKeyName g) ;;
  responseClearCookie (rememberMeKeyName g) ;;
  assign (set_user None) ;;
  assign (set_viaRemember false) ;;
  assign (set_isAuthenticated false) ;;
  assign (set_isLoggedOut true) ;;
  g' <- this ;;
  sid <- sessionIdNow ;;
  emit (logged_out (name g) (user g') sid) ;;
  match if_truthy truthy_str rememberMeCookie,
        deleteRememberMeTokenBySeries (userProvider g) with
  | Some rememberMeCookie, Some deleteBySeries =>
      match decode P rememberMeCookie with
      | None => ret tt
      | Some (decodedSeries, _) =>
          await (CallDeleteRememberMeTokenBySeries decodedSeries)
            (deleteBySeries decodedSeries)
      end
  | _, _ => ret tt
  end.

(** The client response is the one-entry session [{ [sessionKeyName]: userId }]. *)
Definition authenticateAsClient (u : User) : M (gmap string Ident) :=
  g <- this ;;
  providerUser <- await (CallCreateUserForGuard u)
                    (createUserForGuard (userProvider g) u) ;;
  ret {[ sessionKeyName g := getId providerUser ]}.

End SessionGuard.

(** ** The initialisation middleware

    [src/Middleware/AuthInit.js].  The configuration is read through
    [Config.get], here a finite map from dotted paths to strings in which an
    absent path reads [undefined]; [auth] and [next] are whatever the request
    pipeline supplies, as computations over the state of the request. *)

Module AuthInit.

Record t := {
  scheme : option string
}.

(** [`auth.${authenticator}.scheme`]; an undefined authenticator is
    interpolated as the text "undefined". *)
Definition schemeKey (authenticator : option string) : string :=
  "auth." +:+ default "undefined" authenticator +:+ ".scheme".

Definition constructor (Config : gmap string string) : t :=
  let authenticator := Config !! "auth.authenticator" in
  {| scheme := Config !! schemeKey authenticator |}.

(** [this.scheme === 'session'] *)
Definition usesSession (self : t) : bool :=
  match scheme self with
  | Some s => String.eqb s "session"
  | None => false
  end.

Definition handle {S : Type} (self : t)
    (auth_check : S -> Result bool * S) (next : S -> Result unit * S)
    : S -> Result unit * S :=
  fun s =>
    if usesSession self then
      match auth_check s with
      | (Ok _, s') => next s'
      | (Err e, s') => (Err e, s')
      end
    else next s.

End AuthInit.

(** ** The connection options of the Lucid provider

    [getModelOptions] and [setConnection] of the provider class; the query
    builder, the hooks and the container stay outside. *)

Module LucidProvider.

(** [string | QueryClientContract] *)
Inductive Connection (Client : Type) :=
| ConnectionName (s : string)
| ConnectionClient (c : Client).
Arguments ConnectionName {Client} s.
Arguments ConnectionClient {Client} c.

(** The object handed to [model.query]: [{}], [{ connection }] or [{ client }]. *)
Record ModelOptions (Client : Type) := {
  optConnection : option string;
  optClient : option Client
}.
Arguments optConnection {Client} _.
Arguments optClient {Client} _.

(** The fields of the provider that the options depend on:
    [this.config.connection] and [this.connection]. *)
Record t (Client : Type) := {
  configConnection : option string;
  connection : option (Connection Client)
}.
Arguments configConnection {Client} _.
Arguments connection {Client} _.

Definition truthy_connection {Client} (c : Connection Client) : bool :=
  match c with
  | ConnectionName s => truthy_str s
  | ConnectionClient _ => true
  end.

Definition getModelOptions {Client} (self : t Client) : ModelOptions Client :=
  match if_truthy truthy_connection (connection self) with
  | None =>
      match if_truthy truthy_str (configConnection self) with
      | Some c => {| optConnection := Some c; optClient := None |}
      | None => {| optConnection := None; optClient := None |}
      end
  | Some (ConnectionName s) => {| optConnection := Some s; optClient := None |}
  | Some (ConnectionClient c) => {| optConnection := None; optClient := Some c |}
  end.

Definition setConnection {Client} (c : Connection Client) (self : t Client) : t Client :=
  {| configConnection := configConnection self; connection := Some c |}.

End LucidProvider.

(** ** Vocabulary of the statements *)

(** The error raised by [#authenticationFailed] and by [getUserOrFail]. *)
Definition unauthorized : Error :=
  E_UNAUTHORIZED_ACCESS "Invalid or expired user session" "session".

(** The error raised by [login] when the provider cannot create tokens. *)
Definition rememberMeUnsupported : Error :=
  Exception ("Cannot use " +:+ dq +:+ "rememberMe" +:+ dq +:+
             " feature. The provider does not implement the " +:+ dq +:+
             "createRememberMeToken" +:+ dq +:+ " method").

(** The effects that change the session store. *)
Definition sessionMutation {User} (e : Effect User) : bool :=
  match e with
  | SessionPut _ _ _ | SessionForget _ _ | SessionRegenerate _ => true
  | _ => false
  end.

(** The error raised by [#loginFailed]. *)
Definition invalidCredentials : Error :=
  E_INVALID_CREDENTIALS "Invalid user credentails" "session".

(** The error raised by [#getSession] when the context has no session. *)
Definition sessionMissing : Error :=
  RuntimeException
    ("Cannot authenticate user. Install and configure " +:+ dq +:+
     "@adonisjs/session" +:+ dq +:+ " package").

(** The effects that reach the provider. *)
Definition providerCall {User} (e : Effect User) : bool :=
  match e with
  | Call _ => true
  | _ => false
  end.

(** The world [verifyCredentials] leaves after a match. *)
Definition verified {User DB} (uid password : string) (u : User) (d : DB)
    (g : Guard User DB) (w : World User DB) : World User DB :=
  record (Emit (credentials_verified (name g) uid u))
    (set_db d (record (Call (CallVerifyCredentials User uid password)) w)).

(** The public methods of the guard, as calls a request handler can make. *)
Inductive Request (User : Type) :=
| DoVerifyCredentials (uid password : string)
| DoAttempt (uid password : string) (remember : bool)
| DoLoginViaId (uid : Ident) (remember : bool)
| DoLogin (u : User) (remember : bool)
| DoAuthenticate
| DoCheck
| DoLogout
| DoGetUserOrFail
| DoAuthenticateAsClient (u : User).
Arguments DoVerifyCredentials {User} uid password.
Arguments DoAttempt {User} uid password remember.
Arguments DoLoginViaId {User} uid remember.
Arguments DoAuthenticate {User}.
Arguments DoCheck {User}.
Arguments DoLogout {User}.
Arguments DoGetUserOrFail {User}.

(** The state a call leaves behind, whether it returns or throws. *)
Definition perform {User DB} {truthyUser : Truthy User} (P : Platform) (q : Request User)
    (s : St User DB) : St User DB :=
  match q with
  | DoVerifyCredentials uid password => snd (verifyCredentials uid password s)
  | DoAttempt uid password remember => snd (attempt P uid password remember s)
  | DoLoginViaId uid remember => snd (loginViaId P uid remember s)
  | DoLogin u remember => snd (login P u remember s)
  | DoAuthenticate => snd (authenticate P s)
  | DoCheck => snd (check P s)
  | DoLogout => snd (logout P s)
  | DoGetUserOrFail => snd (getUserOrFail s)
  | DoAuthenticateAsClient u => snd (authenticateAsClient u s)
  end.

(** ** A concrete platform and an in-memory provider

    Used to run the guard on explicit requests. *)

Module Demo.

Definition User : Type := string.

(** The backing store: the users by id, the persisted remember-me tokens,
    and whether the database answers at all. *)
Record DB := {
  users : list (Z * User);
  tokens : list RememberMeToken.t;
  online : bool
}.

Fixpoint split_dot (s : string) : option (string * string) :=
  match s with
  | EmptyString => None
  | String c rest =>
      if Ascii.eqb c "."%char then Some (EmptyString, rest)
      else match split_dot rest with
           | Some (a, b) => Some (String c a, b)
           | None => None
           end
  end.

Definition platform : Platform :=
  {| digest := fun s => "sha256:" +:+ s;
     randomString := fun n => "r" +:+ pretty n;
     encode := fun a b => a +:+ "." +:+ b;
     decode := fun s =>
       match split_dot s with
       | Some (a, b) =>
           if String.eqb a EmptyString || String.eqb b EmptyString then None else Some (a, b)
       | None => None
       end;
     seconds := fun d =>
       match d with
       | DNum n => n
       | DStr s => if String.eqb s "2years" then 63072000 else 0
       end;
     localTime := fun t => t;
     utc := fun t => t |}.

(** The same platform in a zone that is one hour ahead of UTC until the
    instant [fallBack] and at UTC from then on, as when summer time ends.
    A local time that occurs twice is read with the offset in force before
    the change. *)
Definition fallBack : Z := 10000000.

Definition summerZone : Platform :=
  {| digest := digest platform;
     randomString := randomString platform;
     encode := encode platform;
     decode := decode platform;
     seconds := seconds platform;
     localTime := fun t => if t <? fallBack then t + 3600000 else t;
     utc := fun l => if l <? fallBack + 3600000 then l - 3600000 else l |}.

(** Users are strings here, with the truthiness of strings. *)
#[global] Instance truthyUser : Truthy User := truthy_str.

Definition unavailable : Error := OtherError "DatabaseError" "connection lost".

Definition query {A} (f : DB -> A * DB) : Async DB A :=
  fun d => if online d then (Ok (fst (f d)), snd (f d)) else (Err unavailable, d).

Definition id_key (i : Ident) : Z :=
  match i with
  | IdNum n => n
  | IdBig n => n
  | IdStr _ => -1
  end.

Fixpoint lookup_user (i : Z) (l : list (Z * User)) : option (SessionGuardUser User) :=
  match l with
  | [] => None
  | (k, u) :: l' =>
      if k =? i then Some {| getId := IdNum k; getOriginal := u |}
      else lookup_user i l'
  end.

Fixpoint lookup_name (u : User) (l : list (Z * User)) : Z :=
  match l with
  | [] => 0
  | (k, v) :: l' => if String.eqb u v then k else lookup_name u l'
  end.

Fixpoint lookup_token (s : string) (l : list RememberMeToken.t) : option RememberMeToken.t :=
  match l with
  | [] => None
  | tok :: l' =>
      if String.eqb (RememberMeToken.series tok) s then Some tok
      else lookup_token s l'
  end.

Definition drop_token (s : string) (l : list RememberMeToken.t) : list RememberMeToken.t :=
  List.filter (fun tok => negb (String.eqb (RememberMeToken.series tok) s)) l.

Definition with_tokens (l : list RememberMeToken.t) (d : DB) : DB :=
  {| users := users d; tokens := l; online := online d |}.

(** A provider with every optional method. *)
Definition fullProvider : Provider User DB :=
  {| createUserForGuard := fun u =>
       query (fun d => ({| getId := IdNum (lookup_name u (users d));
                           getOriginal := u |}, d));
     findById := fun i => query (fun d => (lookup_user (id_key i) (users d), d));
     providerVerifyCredentials := fun uid password =>
       query (fun d => (if String.eqb password "secret"
                        then lookup_user (lookup_name uid (users d)) (users d)
                        else None, d));
     createRememberMeToken := Some (fun tok =>
       query (fun d => (tt, with_tokens (tok :: tokens d) d)));
     findRememberMeTokenBySeries := Some (fun s =>
       query (fun d => (lookup_token s (tokens d), d)));
     providerRecycleRememberMeToken := Some (fun tok =>
       query (fun d => (tt, with_tokens
                 (tok :: drop_token (RememberMeToken.series tok) (tokens d)) d)));
     deleteRememberMeTokenBySeries := Some (fun s =>
       query (fun d => (tt, with_tokens (drop_token s (tokens d)) d))) |}.

(** A provider without any remember-me support. *)
Definition plainProvider : Provider User DB :=
  {| createUserForGuard := createUserForGuard fullProvider;
     findById := findById fullProvider;
     providerVerifyCredentials := providerVerifyCredentials fullProvider;
     createRememberMeToken := None;
     findRememberMeTokenBySeries := None;
     providerRecycleRememberMeToken := None;
     deleteRememberMeTokenBySeries := None |}.

(** A provider that can create, find and recycle tokens but not delete them. *)
Definition noDeleteProvider : Provider User DB :=
  {| createUserForGuard := createUserForGuard fullProvider;
     findById := findById fullProvider;
     providerVerifyCredentials := providerVerifyCredentials fullProvider;
     createRememberMeToken := createRememberMeToken fullProvider;
     findRememberMeTokenBySeries := findRememberMeTokenBySeries fullProvider;
     providerRecycleRememberMeToken := providerRecycleRememberMeToken fullProvider;
     deleteRememberMeTokenBySeries := None |}.

Definition conf : SessionGuardConfig := {| rememberMeTokenAge := None |}.

Definition web (p : Provider User DB) : Guard User DB := newGuard "web" conf p.

(** The token persisted for user 1 by a login at time 1000000, drawn from
    series "s1" and secret "v1"; its cookie is "s1.v1". *)
Definition storedToken : RememberMeToken.t :=
  RememberMeToken.create platform 1000000 "s1" "v1" (IdNum 1) (DStr "2years") "web".

Definition store (online : bool) : DB :=
  {| users := [(1, "virk"); (2, "romain")];
     tokens := [storedToken];
     online := online |}.

(** A request: the session values, the request cookies, the clock. *)
Definition request (hasSession : bool) (vals : gmap string Ident)
    (cookies : gmap string string) (database : DB) (clock : Z) : World User DB :=
  {| hasSession := hasSession;
     session := {| values := vals; sessionId := "sid0" |};
     requestCookies := cookies;
     responseCookies := ∅;
     db := database;
     now := clock;
     entropy := 0;
     trace := [] |}.

End Demo.

(** ** Properties of the guard *)

Unset Implicit Arguments.

(** Unfolds the methods of the guard and the primitives of the monad. *)
Ltac unfold_guard :=
  unfold login, attempt, loginViaId, verifyCredentials, authenticate, check,
    logout, authenticateAsClient, authenticateViaId,
    authenticateViaRememberCookie, recycleRememberMeToken, getUserOrFail,
    createSessionForUser, createRememberMeCookie, authenticationSucceeded,
    authenticationFailed, loginFailed, getSession, sessionPut, sessionGet,
    sessionForget, sessionRegenerate, sessionIdNow, requestEncryptedCookie,
    responseEncryptedCookie, responseClearCookie, random, emit, await,
    try_catch, bind, ret, throw, this, ctx, assign, effect in *.

(** Runs through every branch of an unfolded method. *)
Ltac run_guard := cbn in *; repeat (case_match; simplify_eq/=).

Lemma if_truthy_Some {A} (test : A -> bool) (x : option A) (a : A) :
  if_truthy test x = Some a -> x = Some a /\ test a = true.
Proof.
  destruct x as [b|]; cbn; [|discriminate].
  destruct (test b) eqn:Hb; [|discriminate].
  intros [= <-]. now split.
Qed.

Section Memoization.

Variables User DB : Type.
Context {truthyUser : Truthy User}.
Variable P : Platform.
Implicit Types (s : St User DB) (r : Result User).

(** Once attempted, [authenticate] is [getUserOrFail]: it reads the guard
    and touches nothing. *)
Lemma authenticate_attempted s :
  authenticationAttempted (fst s) = true ->
  authenticate P s
  = (match if_truthy truthy (user (fst s)) with
     | Some u => Ok u
     | None => Err unauthorized
     end, s).
Proof.
  intros Hflag. unfold authenticate, bind, this. cbn. rewrite Hflag.
  unfold getUserOrFail, bind, this, ret, throw. cbn.
  now destruct (if_truthy truthy (user (fst s))).
Qed.

(** Whatever its outcome, [authenticate] leaves the flag raised. *)
Lemma authenticate_raises_flag s r s' :
  authenticate P s = (r, s') -> authenticationAttempted (fst s') = true.
Proof.
  destruct s as [g w]. unfold_guard. intros H. run_guard; auto.
Qed.

(** A user returned by [authenticate] is the guard's user afterwards. *)
Lemma authenticate_returns_user s u s' :
  authenticate P s = (Ok u, s') -> user (fst s') = Some u.
Proof.
  destruct s as [g w]. unfold_guard. intros H. run_guard; auto.
  match goal with
  | Hu : if_truthy _ _ = Some _ |- _ => now apply if_truthy_Some in Hu
  end.
Qed.

(** C2, as amended.  A second [authenticate] performs no provider lookup,
    emits no event and leaves guard and world as they are; it returns the
    guard's current user when there is one and it is truthy, and fails with
    the unauthorized error otherwise.  So it returns the same user when the
    first call succeeded with a truthy user, fails when the user the first
    call returned is falsy, and raises the unauthorized error again when the
    first call failed and left no truthy user on the guard. *)
Theorem authenticate_twice s r s1 :
  authenticate P s = (r, s1) ->
  authenticate P s1
  = (match if_truthy truthy (user (fst s1)) with
     | Some u => Ok u
     | None => Err unauthorized
     end, s1)
  /\ (forall u, r = Ok u -> truthy u = true -> authenticate P s1 = (Ok u, s1))
  /\ (forall u, r = Ok u -> truthy u = false ->
      authenticate P s1 = (Err unauthorized, s1))
  /\ (forall e, r = Err e -> if_truthy truthy (user (fst s1)) = None ->
      authenticate P s1 = (Err unauthorized, s1)).
Proof.
  intros Hfirst.
  pose proof (authenticate_raises_flag _ _ _ Hfirst) as Hflag.
  pose proof (authenticate_attempted _ Hflag) as Hsecond.
  split; [exact Hsecond|]. split; [|split].
  - intros u -> Htruthy. rewrite Hsecond.
    rewrite (authenticate_returns_user _ _ _ Hfirst). cbn. now rewrite Htruthy.
  - intros u -> Hfalsy. rewrite Hsecond.
    rewrite (authenticate_returns_user _ _ _ Hfirst). cbn. now rewrite Hfalsy.
  - intros e _ Hnone. now rewrite Hsecond, Hnone.
Qed.

End Memoization.

Lemma authenticate_twice_witness :
  let s := (Demo.web Demo.fullProvider,
            Demo.request true {[ "auth_web" := IdNum 1 ]} ∅ (Demo.store true) 0) in
  exists s1,
    authenticate Demo.platform s = (Ok "virk", s1)
    /\ authenticate Demo.platform s1 = (Ok "virk", s1).
Proof.
  intros s. eexists. split.
  - vm_compute. reflexivity.
  - eapply (authenticate_twice _ _ Demo.platform s);
      [vm_compute; reflexivity|reflexivity|reflexivity].
Defined.

(** C2, as stated, fails: the database is down during the first call, which
    rejects with the provider's error; the second call raises the unauthorized
    error instead of the first failure. *)
Lemma authenticate_twice_differs :
  let s := (Demo.web Demo.fullProvider,
            Demo.request true {[ "auth_web" := IdNum 1 ]} ∅ (Demo.store false) 0) in
  let first := authenticate Demo.platform s in
  let second := authenticate Demo.platform (snd first) in
  fst first = Err Demo.unavailable
  /\ fst second = Err unauthorized
  /\ fst second <> fst first.
Proof.
  vm_compute. repeat split. discriminate.
Qed.

(** The same happens without any provider: the context has no session, the
    first call raises the runtime exception, the second the unauthorized
    error. *)
Example authenticate_twice_without_session :
  let s := (Demo.web Demo.fullProvider,
            Demo.request false ∅ ∅ (Demo.store true) 0) in
  let first := authenticate Demo.platform s in
  (exists msg, fst first = Err (RuntimeException msg))
  /\ fst (authenticate Demo.platform (snd first)) = Err unauthorized.
Proof.
  vm_compute. split; [eexists|]; reflexivity.
Qed.

(** A first call that fails can also be followed by a success: the user has
    logged in during the request, the database goes down, and the second call
    returns the user of [login]. *)
Example authenticate_twice_after_login :
  let s := (set_user (Some "virk") (Demo.web Demo.fullProvider),
            Demo.request true {[ "auth_web" := IdNum 1 ]} ∅ (Demo.store false) 0) in
  let first := authenticate Demo.platform s in
  fst first = Err Demo.unavailable
  /\ fst (authenticate Demo.platform (snd first)) = Ok "virk".
Proof.
  vm_compute. split; reflexivity.
Qed.

(** A user that is the empty string is returned by the call that finds it
    and refused by the next one. *)
Example authenticate_twice_falsy_user :
  let s := (Demo.web Demo.fullProvider,
            Demo.request true {[ "auth_web" := IdNum 3 ]} ∅
              {| Demo.users := [(3, EmptyString)]; Demo.tokens := [];
                 Demo.online := true |} 0) in
  let first := authenticate Demo.platform s in
  fst first = Ok EmptyString
  /\ fst (authenticate Demo.platform (snd first)) = Err unauthorized.
Proof.
  vm_compute. split; reflexivity.
Qed.

Section Check.

Variables User DB : Type.
Context {truthyUser : Truthy User}.
Variable P : Platform.
Implicit Types (s : St User DB).

(** C3.  [check] returns true exactly when [authenticate] succeeds; an
    unauthorized failure becomes false and is not propagated; any other
    error leaves [check] as it left [authenticate].  The state after
    [check] is the state after [authenticate]. *)
Theorem check_follows_authenticate s :
  (forall s', check P s = (Ok true, s') <-> exists u, authenticate P s = (Ok u, s'))
  /\ (forall e s', authenticate P s = (Err e, s') ->
      instanceof_E_UNAUTHORIZED_ACCESS e = true -> check P s = (Ok false, s'))
  /\ (forall e s', authenticate P s = (Err e, s') ->
      instanceof_E_UNAUTHORIZED_ACCESS e = false -> check P s = (Err e, s')).
Proof.
  unfold check, try_catch, bind, ret, throw.
  destruct (authenticate P s) as [[u|e] s0] eqn:Hauth.
  - split; [|split].
    + intros s'. split.
      * intros [= <-]. now exists u.
      * intros [u' [= <- <-]]. reflexivity.
    + intros e s' [=].
    + intros e s' [=].
  - split; [|split].
    + intros s'. split.
      * destruct (instanceof_E_UNAUTHORIZED_ACCESS e); intros [=].
      * intros [u' [=]].
    + intros e' s' [= <- <-] ->. reflexivity.
    + intros e' s' [= <- <-] ->. reflexivity.
Qed.

End Check.

Lemma check_follows_authenticate_witness :
  let s := (Demo.web Demo.fullProvider,
            Demo.request true ∅ ∅ (Demo.store true) 0) in
  exists s', authenticate Demo.platform s = (Err unauthorized, s')
             /\ check Demo.platform s = (Ok false, s').
Proof.
  intros s. eexists. split.
  - vm_compute. reflexivity.
  - apply (proj1 (proj2 (check_follows_authenticate _ _ Demo.platform s)) unauthorized).
    + vm_compute. reflexivity.
    + reflexivity.
Defined.

Section Login.

Variables User DB : Type.
Context {truthyUser : Truthy User}.
Variable P : Platform.
Implicit Types (s : St User DB) (g : Guard User DB) (w : World User DB) (u : User).

(** [login] writes [user] and [isLoggedOut] and no other field of the guard. *)
Lemma login_frame u remember s r s' :
  login P u remember s = (r, s') ->
  isAuthenticated (fst s') = isAuthenticated (fst s)
  /\ viaRemember (fst s') = viaRemember (fst s)
  /\ authenticationAttempted (fst s') = authenticationAttempted (fst s).
Proof.
  destruct s as [g w]. unfold_guard. intros H. run_guard; auto.
Qed.

Lemma login_sets_user u remember s u' s' :
  login P u remember s = (Ok u', s') ->
  u' = u /\ user (fst s') = Some u /\ isLoggedOut (fst s') = false.
Proof.
  destruct s as [g w]. unfold_guard. intros H. run_guard; auto.
Qed.

(** [verifyCredentials] does not write to the guard. *)
Lemma verifyCredentials_frame uid password s r s' :
  verifyCredentials uid password s = (r, s') -> fst s' = fst s.
Proof.
  destruct s as [g w]. unfold_guard. intros H. run_guard; auto.
Qed.

Lemma attempt_inv uid password remember s r s' :
  attempt P uid password remember s = (r, s') ->
  (exists e, r = Err e /\ verifyCredentials uid password s = (Err e, s'))
  \/ (exists u s0, verifyCredentials uid password s = (Ok u, s0)
                   /\ login P u remember s0 = (r, s')).
Proof.
  unfold attempt, bind.
  destruct (verifyCredentials uid password s) as [[u|e] s0] eqn:Hv.
  - intros Hl. right. now exists u, s0.
  - intros [= <- <-]. left. now exists e.
Qed.

Lemma loginViaId_inv uid remember s r s' :
  loginViaId P uid remember s = (r, s') ->
  (exists e, r = Err e /\ fst s' = fst s)
  \/ (exists u s0, fst s0 = fst s /\ login P u remember s0 = (r, s')).
Proof.
  destruct s as [g w]. unfold loginViaId, loginFailed, emit, await, bind, this,
    ret, throw, effect. cbn.
  destruct (findById (userProvider g) uid (db w)) as [[[pu|]|e] d].
  - intros Hl. right. eexists _, (_, _). split; [|exact Hl]. reflexivity.
  - intros [= <- <-]. left. eexists. split; reflexivity.
  - intros [= <- <-]. left. eexists. split; reflexivity.
Qed.

(** No public method other than [authenticate] and [check] raises
    [isAuthenticated]. *)
Lemma perform_isAuthenticated (q : Request User) s :
  q <> DoAuthenticate -> q <> DoCheck ->
  isAuthenticated (fst s) = false ->
  isAuthenticated (fst (perform P q s)) = false.
Proof.
  intros Hq1 Hq2 Hs. destruct q; try congruence; cbn [perform].
  - destruct (verifyCredentials uid password s) as [r s'] eqn:H.
    cbn. now rewrite (verifyCredentials_frame _ _ _ _ _ H).
  - destruct (attempt P uid password remember s) as [r s'] eqn:H. cbn.
    destruct (attempt_inv _ _ _ _ _ _ H) as [(e & _ & Hv)|(u & s0 & Hv & Hl)].
    + now rewrite (verifyCredentials_frame _ _ _ _ _ Hv).
    + destruct (login_frame _ _ _ _ _ Hl) as (-> & _).
      now rewrite (verifyCredentials_frame _ _ _ _ _ Hv).
  - destruct (loginViaId P uid remember s) as [r s'] eqn:H. cbn.
    destruct (loginViaId_inv _ _ _ _ _ H) as [(e & _ & ->)|(u & s0 & Hg & Hl)];
      [assumption|].
    destruct (login_frame _ _ _ _ _ Hl) as (-> & _). now rewrite Hg.
  - destruct (login P u remember s) as [r s'] eqn:H. cbn.
    now destruct (login_frame _ _ _ _ _ H) as (-> & _).
  - destruct s as [g w]. unfold_guard. run_guard; auto.
  - destruct s as [g w]. unfold_guard. run_guard; auto.
  - destruct s as [g w]. unfold_guard. run_guard; auto.
Qed.

(** C10.  A successful [login], [attempt] or [loginViaId] sets [user] and
    lowers [isLoggedOut]; none of them, successful or not, changes
    [isAuthenticated] or [viaRemember], which are false on a fresh guard;
    and among the public methods only [authenticate] and [check] can raise
    [isAuthenticated]. *)
Theorem login_keeps_authentication_flags :
  (forall u remember s r s',
      login P u remember s = (r, s') ->
      isAuthenticated (fst s') = isAuthenticated (fst s)
      /\ viaRemember (fst s') = viaRemember (fst s)
      /\ (forall u', r = Ok u' ->
          user (fst s') = Some u /\ isLoggedOut (fst s') = false))
  /\ (forall uid password remember s r s',
      attempt P uid password remember s = (r, s') ->
      isAuthenticated (fst s') = isAuthenticated (fst s)
      /\ viaRemember (fst s') = viaRemember (fst s)
      /\ (forall u', r = Ok u' ->
          user (fst s') = Some u' /\ isLoggedOut (fst s') = false))
  /\ (forall uid remember s r s',
      loginViaId P uid remember s = (r, s') ->
      isAuthenticated (fst s') = isAuthenticated (fst s)
      /\ viaRemember (fst s') = viaRemember (fst s)
      /\ (forall u', r = Ok u' ->
          user (fst s') = Some u' /\ isLoggedOut (fst s') = false))
  /\ (forall n c (p : Provider User DB),
      isAuthenticated (newGuard n c p) = false
      /\ viaRemember (newGuard n c p) = false)
  /\ (forall (q : Request User) s,
      isAuthenticated (fst s) = false ->
      isAuthenticated (fst (perform P q s)) = true ->
      q = DoAuthenticate \/ q = DoCheck).
Proof.
  split; [|split; [|split; [|split]]].
  - intros u remember s r s' H.
    destruct (login_frame _ _ _ _ _ H) as (HA & HV & _).
    split; [exact HA|]. split; [exact HV|].
    intros u' ->. now apply (login_sets_user _ _ _ _ _ H).
  - intros uid password remember s r s' H.
    destruct (attempt_inv _ _ _ _ _ _ H) as [(e & -> & Hv)|(u & s0 & Hv & Hl)].
    + rewrite (verifyCredentials_frame _ _ _ _ _ Hv).
      split; [reflexivity|]. split; [reflexivity|]. intros u' [=].
    + destruct (login_frame _ _ _ _ _ Hl) as (HA & HV & _).
      rewrite HA, HV, (verifyCredentials_frame _ _ _ _ _ Hv).
      split; [reflexivity|]. split; [reflexivity|]. intros u' ->.
      destruct (login_sets_user _ _ _ _ _ Hl) as (-> & Hu & Ho). now split.
  - intros uid remember s r s' H.
    destruct (loginViaId_inv _ _ _ _ _ H) as [(e & -> & ->)|(u & s0 & Hg & Hl)].
    + split; [reflexivity|]. split; [reflexivity|]. intros u' [=].
    + destruct (login_frame _ _ _ _ _ Hl) as (HA & HV & _).
      rewrite HA, HV, Hg.
      split; [reflexivity|]. split; [reflexivity|]. intros u' ->.
      destruct (login_sets_user _ _ _ _ _ Hl) as (-> & Hu & Ho). now split.
  - intros n c p. split; reflexivity.
  - intros q s Hs Hq.
    destruct q; auto; exfalso;
      (rewrite perform_isAuthenticated in Hq;
       [discriminate Hq|discriminate|discriminate|exact Hs]).
Qed.

End Login.

Lemma login_keeps_authentication_flags_witness :
  let s := (Demo.web Demo.fullProvider,
            Demo.request true ∅ ∅ (Demo.store true) 0) in
  let s' := snd (login Demo.platform "virk" false s) in
  isAuthenticated (fst s') = false /\ viaRemember (fst s') = false
  /\ user (fst s') = Some "virk" /\ isLoggedOut (fst s') = false.
Proof.
  intros s s'.
  destruct (proj1 (login_keeps_authentication_flags _ _ Demo.platform)
              "virk" false s (Ok "virk") s') as (HA & HV & HU).
  { vm_compute. reflexivity. }
  destruct (HU "virk" eq_refl) as [Hu Ho].
  split; [rewrite HA; reflexivity|].
  split; [rewrite HV; reflexivity|].
  split; [exact Hu|exact Ho].
Defined.

Section LoginEffects.

Variables User DB : Type.
Context {truthyUser : Truthy User}.
Variable P : Platform.
Implicit Types (g : Guard User DB) (w : World User DB) (u : User).

(** C6.  A [login] that returns has stored the identifier of the principal
    under the session key and then regenerated the session identifier, has
    lowered [isLoggedOut], has set [user] to the principal it was given, and
    has emitted [login_succeeded] last, with the new session identifier;
    with [remember] false it has cleared the remember-me cookie before. *)
Theorem login_establishes_session u remember g w u' g' w' :
  login P u remember (g, w) = (Ok u', (g', w')) ->
  exists providerUser d before n,
    createUserForGuard (userProvider g) u (db w) = (Ok providerUser, d)
    /\ trace w' = (trace w ++ before
                   ++ [SessionPut _ (sessionKeyName g) (getId providerUser);
                       SessionRegenerate _;
                       Emit (login_succeeded (name g) u (sessionId (session w')))])%list
    /\ values (session w') !! sessionKeyName g = Some (getId providerUser)
    /\ sessionId (session w') = randomString P n
    /\ entropy w' = S n
    /\ u' = u /\ user g' = Some u /\ isLoggedOut g' = false
    /\ (remember = false ->
        before = [Emit (login_attempted (name g) u);
                  Call (CallCreateUserForGuard u);
                  ClearCookie _ (rememberMeKeyName g)]
        /\ responseCookies w' !! rememberMeKeyName g = Some (CookieCleared)).
Proof.
  unfold_guard. intros H. run_guard.
  - match goal with
    | Hc : createUserForGuard _ _ _ = (Ok ?pu, ?d0),
      Ht : _ ?tok ?d0 = (Ok _, _) |- _ =>
        exists pu, d0,
          [Emit (login_attempted (name g) u');
           Call (CallCreateUserForGuard u');
           Call (CallCreateRememberMeToken User tok);
           EncryptedCookie User (rememberMeKeyName g)
             (encode P (randomString P (entropy w))
                (randomString P (S (entropy w)))) (tokenAge g)],
          (S (S (entropy w)))
    end.
    split; [assumption|].
    split; [now repeat rewrite <- app_assoc|].
    split; [apply lookup_insert_eq|].
    do 5 (split; [reflexivity|]). intros [=].
  - match goal with
    | Hc : createUserForGuard _ _ _ = (Ok ?pu, ?d0) |- _ =>
        exists pu, d0,
          [Emit (login_attempted (name g) u');
           Call (CallCreateUserForGuard u');
           ClearCookie User (rememberMeKeyName g)],
          (entropy w)
    end.
    split; [assumption|].
    split; [now repeat rewrite <- app_assoc|].
    split; [apply lookup_insert_eq|].
    do 5 (split; [reflexivity|]). intros _.
    split; [reflexivity|]. apply lookup_insert_eq.
Qed.

(** With the session installed and the adapter resolved, a [login] that
    asks for a remember-me token from a provider that cannot create one
    fails with the exception of the feature. *)
Lemma login_remember_unsupported_error u g w providerUser d :
  createRememberMeToken (userProvider g) = None ->
  hasSession w = true ->
  createUserForGuard (userProvider g) u (db w) = (Ok providerUser, d) ->
  fst (login P u true (g, w)) = Err rememberMeUnsupported.
Proof.
  intros Hnone Hs Hc. unfold_guard. cbn.
  rewrite Hs. cbn. rewrite Hc. cbn. now rewrite Hnone.
Qed.

(** C4.  When the provider has no [createRememberMeToken],
    [login(user, true)] fails; when it fails the guard is as before, the
    session store and its identifier are as before, and nothing the call
    did touches the session.  With the session installed and the adapter
    for the user resolved, the failure is the exception that names the
    missing method. *)
Theorem login_remember_unsupported u g w :
  createRememberMeToken (userProvider g) = None ->
  exists e w' after,
    login P u true (g, w) = (Err e, (g, w'))
    /\ session w' = session w
    /\ trace w' = (trace w ++ after)%list
    /\ forallb (fun x => negb (sessionMutation x)) after = true
    /\ (hasSession w = true ->
        forall providerUser d,
          createUserForGuard (userProvider g) u (db w) = (Ok providerUser, d) ->
          e = rememberMeUnsupported).
Proof.
  intros Hnone. unfold_guard. cbn.
  destruct (hasSession w) eqn:Hs; cbn.
  - destruct (createUserForGuard (userProvider g) u (db w)) as [[pu|e] d] eqn:Hc;
      cbn; rewrite ?Hnone; cbn.
    + eexists _, _, [_; _]. split; [reflexivity|]. cbn.
      split; [reflexivity|]. split; [now rewrite <- app_assoc|].
      split; [reflexivity|]. reflexivity.
    + eexists _, _, [_; _]. split; [reflexivity|]. cbn.
      split; [reflexivity|]. split; [now rewrite <- app_assoc|].
      split; [reflexivity|]. intros _ pu d' [=].
  - eexists _, _, [_]. split; [reflexivity|]. cbn.
    split; [reflexivity|]. split; [reflexivity|].
    split; [reflexivity|]. intros [=].
Qed.

End LoginEffects.

Lemma login_establishes_session_witness :
  let g := Demo.web Demo.fullProvider in
  let w := Demo.request true ∅ ∅ (Demo.store true) 0 in
  let end_state := snd (login Demo.platform "virk" false (g, w)) in
  values (session (snd end_state)) !! "auth_web" = Some (IdNum 1)
  /\ user (fst end_state) = Some "virk"
  /\ isLoggedOut (fst end_state) = false.
Proof.
  intros g w end_state.
  destruct (login_establishes_session _ _ Demo.platform "virk" false g w "virk"
              (fst end_state) (snd end_state))
    as (pu & d & before & n & Hc & _ & Hv & _ & _ & _ & Hu & Ho & _).
  { vm_compute. reflexivity. }
  injection Hc as <- _.
  split; [exact Hv|]. split; [exact Hu|exact Ho].
Defined.

Lemma login_remember_unsupported_witness :
  let g := Demo.web Demo.plainProvider in
  let w := Demo.request true ∅ ∅ (Demo.store true) 0 in
  exists w',
    login Demo.platform "virk" true (g, w) = (Err rememberMeUnsupported, (g, w'))
    /\ session w' = session w.
Proof.
  intros g w.
  destruct (login_remember_unsupported _ _ Demo.platform "virk" g w eq_refl)
    as (e & w' & after & Hl & Hs & _ & _ & He).
  exists w'. split; [|exact Hs].
  assert (e = rememberMeUnsupported) as <-; [|exact Hl].
  apply (He eq_refl {| getId := IdNum 1; getOriginal := "virk" |} (Demo.store true)).
  reflexivity.
Defined.

Section Authenticate.

Variables User DB : Type.
Context {truthyUser : Truthy User}.
Variable P : Platform.
Implicit Types (g : Guard User DB) (w : World User DB) (id : Ident).


(** C9.  On a first call that falls through to the remember-me cookie, a
    token found under the decoded series whose [guard] is not the name of
    this guard makes [authenticate] fail with the unauthorized error,
    whether its hash matches the secret of the cookie or not; nobody is
    looked up, no session is created and no cookie is issued. *)
Theorem authenticate_token_of_other_guard
    g w cookie decodedSeries decodedValue find recycle token d :
  authenticationAttempted g = false ->
  hasSession w = true ->
  if_truthy truthy_id (values (session w) !! sessionKeyName g) = None ->
  requestCookies w !! rememberMeKeyName g = Some cookie ->
  truthy_str cookie = true ->
  findRememberMeTokenBySeries (userProvider g) = Some find ->
  providerRecycleRememberMeToken (userProvider g) = Some recycle ->
  decode P cookie = Some (decodedSeries, decodedValue) ->
  find decodedSeries (db w) = (Ok (Some token), d) ->
  RememberMeToken.guard token <> name g ->
  exists g' w',
    authenticate P (g, w) = (Err unauthorized, (g', w'))
    /\ user g' = user g
    /\ isAuthenticated g' = isAuthenticated g
    /\ session w' = session w
    /\ responseCookies w' = responseCookies w
    /\ trace w' = (trace w ++
         [Emit (authentication_attempted User (name g) (sessionId (session w)));
          Call (CallFindRememberMeTokenBySeries User decodedSeries);
          Emit (authentication_failed User (name g) unauthorized
                  (sessionId (session w)))])%list.
Proof.
  intros Hflag Hs Hid Hcookie Htruthy Hfind Hrecycle Hdecode Htoken Hguard.
  apply String.eqb_neq in Hguard.
  unfold_guard. cbn.
  rewrite Hflag. cbn. rewrite Hs. cbn. rewrite Hid. cbn. rewrite Hcookie.
  cbn. rewrite Htruthy. cbn. rewrite Hfind, Hrecycle. cbn. rewrite Hdecode.
  cbn. rewrite Htoken. cbn. rewrite Hguard, orb_true_r. cbn.
  eexists _, _. split; [reflexivity|]. cbn.
  do 4 (split; [reflexivity|]). now repeat rewrite <- app_assoc.
Qed.

(** On a first call that falls through to a truthy remember-me cookie, a
    provider without the lookup or without the recycling method makes
    [authenticate] fail as for any visitor without a session. *)
Lemma authenticate_without_remember_support g w cookie :
  authenticationAttempted g = false ->
  hasSession w = true ->
  if_truthy truthy_id (values (session w) !! sessionKeyName g) = None ->
  requestCookies w !! rememberMeKeyName g = Some cookie ->
  truthy_str cookie = true ->
  findRememberMeTokenBySeries (userProvider g) = None
  \/ providerRecycleRememberMeToken (userProvider g) = None ->
  exists g' w',
    authenticate P (g, w) = (Err unauthorized, (g', w'))
    /\ trace w' = (trace w ++
         [Emit (authentication_attempted User (name g) (sessionId (session w)));
          Emit (authentication_failed User (name g) unauthorized
                  (sessionId (session w)))])%list.
Proof.
  intros Hflag Hs Hid Hcookie Htruthy Hmissing. unfold_guard. cbn.
  rewrite Hflag. cbn. rewrite Hs. cbn. rewrite Hid. cbn. rewrite Hcookie.
  cbn. rewrite Htruthy. cbn.
  destruct Hmissing as [-> | ->];
    [|destruct (findRememberMeTokenBySeries (userProvider g))]; cbn;
    (eexists _, _; split; [reflexivity|]; cbn; now repeat rewrite <- app_assoc).
Qed.

End Authenticate.



Lemma authenticate_token_of_other_guard_witness :
  let g := newGuard "api" Demo.conf Demo.fullProvider in
  let w := Demo.request true ∅ {[ "remember_api" := "s1.v1" ]} (Demo.store true) 0 in
  RememberMeToken.verify Demo.platform Demo.storedToken "v1" = true
  /\ fst (authenticate Demo.platform (g, w)) = Err unauthorized.
Proof.
  intros g w. split; [reflexivity|].
  destruct (authenticate_token_of_other_guard _ _ Demo.platform g w
              "s1.v1" "s1" "v1"
              (fun s => Demo.query (fun d => (Demo.lookup_token s (Demo.tokens d), d)))
              (fun tok => Demo.query (fun d => (tt, Demo.with_tokens
                 (tok :: Demo.drop_token (RememberMeToken.series tok) (Demo.tokens d)) d)))
              Demo.storedToken (Demo.store true))
    as (g' & w' & Ha & _);
    [reflexivity .. | discriminate | rewrite Ha; reflexivity].
Defined.

(** The truthiness test on the stored identifier reads 0 as absent: with no
    cookie on the request the call fails without asking the provider. *)
Example authenticate_reads_zero_as_absent :
  let s := (Demo.web Demo.fullProvider,
            Demo.request true {[ "auth_web" := IdNum 0 ]} ∅ (Demo.store true) 0) in
  let out := authenticate Demo.platform s in
  fst out = Err unauthorized
  /\ trace (snd (snd out))
     = [Emit (authentication_attempted Demo.User "web" "sid0");
        Emit (authentication_failed Demo.User "web" unauthorized "sid0")].
Proof.
  vm_compute. split; reflexivity.
Qed.

Section Capabilities.

Variables User DB : Type.
Context {truthyUser : Truthy User}.
Variable P : Platform.
Implicit Types (g : Guard User DB) (w : World User DB) (u : User).

(** C5, as amended.  A provider without [createRememberMeToken] makes
    [login(user, true)] fail with the exception of the feature, which is not
    an unauthorized error.  A provider without the lookup or the recycling
    method makes a remember-me [authenticate] fail with the ordinary
    unauthorized error, and [check] answers false. *)
Theorem missing_capability_failures :
  (forall u g w providerUser d,
      createRememberMeToken (userProvider g) = None ->
      hasSession w = true ->
      createUserForGuard (userProvider g) u (db w) = (Ok providerUser, d) ->
      fst (login P u true (g, w)) = Err rememberMeUnsupported
      /\ instanceof_E_UNAUTHORIZED_ACCESS rememberMeUnsupported = false)
  /\ (forall g w cookie,
      authenticationAttempted g = false ->
      hasSession w = true ->
      if_truthy truthy_id (values (session w) !! sessionKeyName g) = None ->
      requestCookies w !! rememberMeKeyName g = Some cookie ->
      truthy_str cookie = true ->
      findRememberMeTokenBySeries (userProvider g) = None
      \/ providerRecycleRememberMeToken (userProvider g) = None ->
      exists s',
        authenticate P (g, w) = (Err unauthorized, s')
        /\ check P (g, w) = (Ok false, s')).
Proof.
  split.
  - intros u g w pu d Hnone Hs Hc. split; [|reflexivity].
    exact (login_remember_unsupported_error _ _ P u g w pu d Hnone Hs Hc).
  - intros g w cookie Hflag Hs Hid Hcookie Htruthy Hmissing.
    destruct (authenticate_without_remember_support _ _ P g w cookie
                Hflag Hs Hid Hcookie Htruthy Hmissing) as (g' & w' & Ha & _).
    exists (g', w'). split; [exact Ha|].
    unfold check, try_catch, bind. now rewrite Ha.
Qed.

End Capabilities.

Lemma missing_capability_failures_witness :
  let s := (Demo.web Demo.plainProvider,
            Demo.request true ∅ {[ "remember_web" := "s1.v1" ]} (Demo.store true) 0) in
  exists s', authenticate Demo.platform s = (Err unauthorized, s')
             /\ check Demo.platform s = (Ok false, s').
Proof.
  intros s.
  apply (proj2 (missing_capability_failures _ _ Demo.platform)
           (Demo.web Demo.plainProvider)
           (Demo.request true ∅ {[ "remember_web" := "s1.v1" ]} (Demo.store true) 0)
           "s1.v1"); try reflexivity.
  left. reflexivity.
Defined.

(** C5, as stated, fails: the request carries the cookie of a valid token and
    the provider has neither the lookup nor the recycling method;
    [authenticate] raises the unauthorized error and [check] answers false. *)
Lemma missing_lookup_reads_as_logged_out :
  let s := (Demo.web Demo.plainProvider,
            Demo.request true ∅ {[ "remember_web" := "s1.v1" ]} (Demo.store true) 0) in
  findRememberMeTokenBySeries (userProvider (fst s)) = None
  /\ providerRecycleRememberMeToken (userProvider (fst s)) = None
  /\ fst (authenticate Demo.platform s) = Err unauthorized
  /\ instanceof_E_UNAUTHORIZED_ACCESS unauthorized = true
  /\ fst (check Demo.platform s) = Ok false.
Proof.
  vm_compute. repeat split.
Qed.

Section Recycling.

Variables User DB : Type.
Context {truthyUser : Truthy User}.
Variable P : Platform.
Implicit Types (g : Guard User DB) (w : World User DB).

(** A first [authenticate] that finds no truthy identifier in the session,
    a cookie that decodes, a token of this guard whose hash matches and the
    user of the token, ends with [#recycleRememberMeToken] on that token and
    that cookie; by then the user is set and the request is authenticated. *)
Lemma authenticate_reaches_recycling
    g w cookie decodedSeries decodedValue find recycle token d1 providerUser d2 :
  authenticationAttempted g = false ->
  hasSession w = true ->
  if_truthy truthy_id (values (session w) !! sessionKeyName g) = None ->
  requestCookies w !! rememberMeKeyName g = Some cookie ->
  truthy_str cookie = true ->
  findRememberMeTokenBySeries (userProvider g) = Some find ->
  providerRecycleRememberMeToken (userProvider g) = Some recycle ->
  decode P cookie = Some (decodedSeries, decodedValue) ->
  find decodedSeries (db w) = (Ok (Some token), d1) ->
  RememberMeToken.verify P token decodedValue = true ->
  RememberMeToken.guard token = name g ->
  findById (userProvider g) (RememberMeToken.userId token) d1
  = (Ok (Some providerUser), d2) ->
  exists g1 w1,
    authenticate P (g, w)
    = (match recycleRememberMeToken P token cookie (g1, w1) with
       | (Ok _, s') => (Ok (getOriginal providerUser), s')
       | (Err e, s') => (Err e, s')
       end)
    /\ name g1 = name g /\ config g1 = config g
    /\ userProvider g1 = userProvider g
    /\ user g1 = Some (getOriginal providerUser)
    /\ isAuthenticated g1 = true /\ viaRemember g1 = true
    /\ now w1 = now w /\ db w1 = d2.
Proof.
  intros Hflag Hs Hid Hcookie Htruthy Hfind Hrecycle Hdecode Htoken Hverify
    Hguard HfindById.
  Local Opaque recycleRememberMeToken.
  unfold authenticate, authenticateViaRememberCookie, createSessionForUser,
    authenticationSucceeded, authenticationFailed, getSession, sessionPut,
    sessionGet, sessionRegenerate, sessionIdNow, requestEncryptedCookie,
    random, emit, await, bind, ret, throw, this, ctx, assign, effect.
  cbn. rewrite Hflag. cbn. rewrite Hs. cbn. rewrite Hid. cbn.
  rewrite Hcookie. cbn. rewrite Htruthy. cbn. rewrite Hfind, Hrecycle. cbn.
  rewrite Hdecode. cbn. rewrite Htoken. cbn.
  rewrite Hverify, Hguard, String.eqb_refl. cbn. rewrite HfindById. cbn.
  rewrite Hs. cbn.
  eexists _, _. split; [reflexivity|]. cbn. repeat split.
Qed.
Local Transparent recycleRememberMeToken.

(** The branch of [#recycleRememberMeToken] is decided by the date
    [updatedAtWithBuffer]: up to it the guard re-issues the cookie it
    received, returns the token as it was and does not call the provider;
    past it, if the provider's [recycleRememberMeToken] resolves, the token is
    refreshed with a fresh secret, handed to the provider, and the cookie is
    set to the value the refreshed token releases. *)
Lemma recycling_policy g w token cookie :
  (now w <= updatedAtWithBuffer P token ->
   exists w',
     recycleRememberMeToken P token cookie (g, w) = (Ok token, (g, w'))
     /\ trace w' = (trace w ++
          [EncryptedCookie User (rememberMeKeyName g) cookie (tokenAge g)])%list
     /\ responseCookies w' !! rememberMeKeyName g
        = Some (CookieSet cookie (tokenAge g))
     /\ db w' = db w)
  /\ (now w > updatedAtWithBuffer P token ->
      forall recycle d,
        providerRecycleRememberMeToken (userProvider g) = Some recycle ->
        let secret := randomString P (entropy w) in
        let token' := RememberMeToken.refresh P (now w) secret (tokenAge g) token in
        recycle token' (db w) = (Ok tt, d) ->
        exists w' released,
          recycleRememberMeToken P token cookie (g, w) = (Ok token', (g, w'))
          /\ RememberMeToken.value token' = Some released
          /\ released = encode P (RememberMeToken.series token) secret
          /\ RememberMeToken.hash token' = digest P secret
          /\ RememberMeToken.updatedAt token' = now w
          /\ RememberMeToken.expiresAt token'
             = now w + 1000 * seconds P (tokenAge g)
          /\ trace w' = (trace w ++
               [Call (CallRecycleRememberMeToken User token');
                EncryptedCookie User (rememberMeKeyName g) released (tokenAge g)])%list
          /\ responseCookies w' !! rememberMeKeyName g
             = Some (CookieSet released (tokenAge g))
          /\ db w' = d).
Proof.
  split.
  - intros Hnow. unfold_guard. cbn.
    destruct (Z.gtb_spec (now w) (updatedAtWithBuffer P token)); [lia|]. cbn.
    eexists. split; [reflexivity|]. cbn.
    split; [reflexivity|]. split; [apply lookup_insert_eq|reflexivity].
  - intros Hnow recycle d Hrecycle secret token' Hwrite. unfold_guard. cbn.
    destruct (Z.gtb_spec (now w) (updatedAtWithBuffer P token)); [|lia]. cbn.
    rewrite Hrecycle. cbn. fold secret. fold token'. rewrite Hwrite. cbn.
    eexists _, _. split; [reflexivity|]. cbn.
    do 5 (split; [reflexivity|]).
    split; [now rewrite <- app_assoc|].
    split; [apply lookup_insert_eq|reflexivity].
Qed.

(** In a zone without a change of offset around [updatedAt] the buffer date
    is [updatedAt] plus 60 seconds. *)
Lemma updatedAtWithBuffer_steady token :
  utc P (localTime P (RememberMeToken.updatedAt token) + 60000)
  = RememberMeToken.updatedAt token + 60000 ->
  updatedAtWithBuffer P token = RememberMeToken.updatedAt token + 60000.
Proof.
  intros H. unfold updatedAtWithBuffer. exact H.
Qed.

End Recycling.

(** C1.  The claim fails where the summer time of the zone ends, because
    the buffer is taken on the seconds field of the local time.  A token last
    updated half an hour after the clocks went back has its buffer date 3540
    seconds before [updatedAt]: a request 30 seconds after the update
    refreshes the token, calls the provider and issues a new cookie.  A token
    last updated 30 seconds before the clocks went back has its buffer date
    3660 seconds after [updatedAt]: a request 90 seconds after the update
    re-issues the cookie it received and leaves the token alone. *)
Theorem recycling_where_summer_time_ends :
  let g := Demo.web Demo.fullProvider in
  let inside := Demo.fallBack + 1800000 in
  let before := Demo.fallBack - 30000 in
  let updated (t : Z) : RememberMeToken.t :=
    RememberMeToken.create Demo.summerZone t "s1" "v1" (IdNum 1) (DStr "2years") "web" in
  let ask (t : Z) : World Demo.User Demo.DB :=
    Demo.request true ∅ ∅ (Demo.store true) t in
  (updatedAtWithBuffer Demo.summerZone (updated inside) = inside - 3540000
   /\ exists token' w',
        recycleRememberMeToken Demo.summerZone (updated inside) "s1.v1"
          (g, ask (inside + 30000))
        = (Ok token', (g, w'))
        /\ RememberMeToken.hash token' <> RememberMeToken.hash (updated inside)
        /\ responseCookies w' !! "remember_web" = Some (CookieSet "s1.r0" (DStr "2years"))
        /\ trace w' = [Call (CallRecycleRememberMeToken Demo.User token');
                       EncryptedCookie Demo.User "remember_web" "s1.r0" (DStr "2years")])
  /\ (updatedAtWithBuffer Demo.summerZone (updated before) = before + 3660000
      /\ exists w',
           recycleRememberMeToken Demo.summerZone (updated before) "s1.v1"
             (g, ask (before + 90000))
           = (Ok (updated before), (g, w'))
           /\ responseCookies w' !! "remember_web" = Some (CookieSet "s1.v1" (DStr "2years"))
           /\ trace w' = [EncryptedCookie Demo.User "remember_web" "s1.v1" (DStr "2years")]).
Proof.
  cbv zeta. split; (split; [reflexivity|]).
  - eexists _, _. split; [vm_compute; reflexivity|].
    split; [vm_compute; discriminate|]. split; reflexivity.
  - eexists. split; [vm_compute; reflexivity|]. split; reflexivity.
Qed.

(** In the zone of [Demo.platform], which never changes its offset, the
    same token is left alone after 30 seconds and recycled after 90. *)
Example recycling_in_a_steady_zone :
  let g := Demo.web Demo.fullProvider in
  let early := Demo.request true ∅ ∅ (Demo.store true) 1030000 in
  let late := Demo.request true ∅ ∅ (Demo.store true) 1090000 in
  fst (recycleRememberMeToken Demo.platform Demo.storedToken "s1.v1" (g, early))
  = Ok Demo.storedToken
  /\ responseCookies
       (snd (snd (recycleRememberMeToken Demo.platform Demo.storedToken "s1.v1" (g, late))))
     !! "remember_web" = Some (CookieSet "s1.r0" (DStr "2years")).
Proof.
  vm_compute. split; reflexivity.
Qed.

(** The whole path on a request carrying the cookie "s1.v1" of a token last
    updated at 1000000: at 1030000 the same cookie goes out and the store is
    untouched; at 1090000 a new cookie goes out and the store holds the new
    hash. *)
Example authenticate_within_buffer :
  let s := (Demo.web Demo.fullProvider,
            Demo.request true ∅ {[ "remember_web" := "s1.v1" ]} (Demo.store true) 1030000) in
  let out := authenticate Demo.platform s in
  fst out = Ok "virk"
  /\ responseCookies (snd (snd out)) !! "remember_web"
     = Some (CookieSet "s1.v1" (DStr "2years"))
  /\ db (snd (snd out)) = Demo.store true.
Proof.
  vm_compute. repeat split.
Qed.

Example authenticate_after_buffer :
  let s := (Demo.web Demo.fullProvider,
            Demo.request true ∅ {[ "remember_web" := "s1.v1" ]} (Demo.store true) 1090000) in
  let out := authenticate Demo.platform s in
  fst out = Ok "virk"
  /\ responseCookies (snd (snd out)) !! "remember_web"
     = Some (CookieSet "s1.r1" (DStr "2years"))
  /\ List.map RememberMeToken.hash (Demo.tokens (db (snd (snd out)))) = ["sha256:r1"].
Proof.
  vm_compute. repeat split.
Qed.

Section Logout.

Variables User DB : Type.
Context {truthyUser : Truthy User}.
Variable P : Platform.
Implicit Types (g : Guard User DB) (w : World User DB).

(** C8.  With the session installed, [logout] forgets the session key,
    clears the remember-me cookie, resets the flags and the user and emits
    [logged_out], in that order.  The provider is asked to delete by series
    exactly when the request carries a truthy cookie that decodes and the
    provider has the method; in every other case nothing more happens and
    [logout] returns. *)
Theorem logout_clears_state g w :
  hasSession w = true ->
  exists r g' w' deletion,
    logout P (g, w) = (r, (g', w'))
    /\ values (session w') !! sessionKeyName g = None
    /\ responseCookies w' !! rememberMeKeyName g = Some CookieCleared
    /\ user g' = None
    /\ isAuthenticated g' = false
    /\ isLoggedOut g' = true
    /\ viaRemember g' = false
    /\ trace w' = (trace w ++
         [SessionForget User (sessionKeyName g);
          ClearCookie User (rememberMeKeyName g);
          Emit (logged_out (name g) None (sessionId (session w)))]
         ++ deletion)%list
    /\ (requestCookies w !! rememberMeKeyName g = None
        \/ (exists c, requestCookies w !! rememberMeKeyName g = Some c
                      /\ (truthy_str c = false \/ decode P c = None))
        \/ deleteRememberMeTokenBySeries (userProvider g) = None ->
        deletion = [] /\ r = Ok tt /\ db w' = db w)
    /\ (forall c decodedSeries decodedValue deleteBySeries,
           requestCookies w !! rememberMeKeyName g = Some c ->
           truthy_str c = true ->
           decode P c = Some (decodedSeries, decodedValue) ->
           deleteRememberMeTokenBySeries (userProvider g) = Some deleteBySeries ->
           deletion = [Call (CallDeleteRememberMeTokenBySeries User decodedSeries)]
           /\ (r, db w') = deleteBySeries decodedSeries (db w)).
Proof.
  intros Hs. unfold_guard. cbn. rewrite Hs. cbn.
  destruct (requestCookies w !! rememberMeKeyName g) as [c|] eqn:Hc; cbn;
    [destruct (truthy_str c) eqn:Ht; cbn;
     [destruct (deleteRememberMeTokenBySeries (userProvider g)) as [del|] eqn:Hd;
      cbn;
      [destruct (decode P c) as [[ser val]|] eqn:Hdec; cbn;
       [destruct (del ser (db w)) as [r d] eqn:Hdel; cbn|]|]|]|].
  all: eexists _, _, _, _; split; [reflexivity|]; cbn.
  all: split; [apply lookup_delete_eq|].
  all: split; [apply lookup_insert_eq|].
  all: do 4 (split; [reflexivity|]).
  all: split; [repeat rewrite <- app_assoc; cbn [app]; reflexivity|].
  all: split.
  all: try (intros _; repeat split; reflexivity).
  all: try (intros c' ser' val' del'; congruence).
  - intros [[=]|[(c' & [= <-] & [Hf|Hn])|[=]]]; congruence.
  - intros c' ser' val' del' [= <-] _ Hdec' [= <-].
    rewrite Hdec in Hdec'. injection Hdec' as <- <-.
    split; [reflexivity|]. cbn. now rewrite Hdel.
Qed.

End Logout.

Lemma logout_clears_state_witness :
  let g := Demo.web Demo.noDeleteProvider in
  let w := Demo.request true {[ "auth_web" := IdNum 1 ]}
             {[ "remember_web" := "s1.v1" ]} (Demo.store true) 0 in
  exists g' w',
    logout Demo.platform (g, w) = (Ok tt, (g', w'))
    /\ values (session w') !! "auth_web" = None
    /\ responseCookies w' !! "remember_web" = Some CookieCleared
    /\ db w' = Demo.store true.
Proof.
  intros g w.
  destruct (logout_clears_state _ _ Demo.platform g w eq_refl)
    as (r & g' & w' & deletion & Hl & Hv & Hc & _ & _ & _ & _ & _ & Hnone & _).
  destruct (Hnone (or_intror (or_intror eq_refl))) as (_ & -> & Hdb).
  exists g', w'. split; [exact Hl|]. split; [exact Hv|]. split; [exact Hc|exact Hdb].
Defined.

(** With the full provider the same request has the token deleted. *)
Example logout_deletes_token :
  let s := (Demo.web Demo.fullProvider,
            Demo.request true {[ "auth_web" := IdNum 1 ]}
              {[ "remember_web" := "s1.v1" ]} (Demo.store true) 0) in
  let out := logout Demo.platform s in
  fst out = Ok tt /\ Demo.tokens (db (snd (snd out))) = [].
Proof.
  vm_compute. split; reflexivity.
Qed.

(** ** Further properties of the guard and of its callers *)

Section Credentials.

Variables User DB : Type.
Context {truthyUser : Truthy User}.
Variable P : Platform.
Implicit Types (g : Guard User DB) (w : World User DB) (u : User).

(** X1.  [verifyCredentials] reads the provider and emits one event; it never
    logs anybody in: the guard, the session and the response cookies are as
    before whatever the outcome.  When the provider finds no match, the call
    fails with the invalid-credentials error, the same for every uid and
    password, after the lookup and the [login_failed] event. *)
Theorem verifyCredentials_only_verifies uid password g w :
  (forall r g' w',
      verifyCredentials uid password (g, w) = (r, (g', w')) ->
      g' = g /\ session w' = session w
      /\ responseCookies w' = responseCookies w)
  /\ (forall d,
      providerVerifyCredentials (userProvider g) uid password (db w) = (Ok None, d) ->
      exists w',
        verifyCredentials uid password (g, w) = (Err invalidCredentials, (g, w'))
        /\ db w' = d
        /\ trace w' = (trace w ++
             [Call (CallVerifyCredentials User uid password);
              Emit (login_failed User (name g) invalidCredentials)])%list).
Proof.
  split.
  - intros r g' w'. unfold_guard. intros H. run_guard; auto.
  - intros d Hnone. unfold_guard. cbn. rewrite Hnone. cbn.
    eexists. split; [reflexivity|]. cbn. split; [reflexivity|].
    now rewrite <- app_assoc.
Qed.

Lemma verifyCredentials_match uid password g w providerUser d :
  providerVerifyCredentials (userProvider g) uid password (db w)
  = (Ok (Some providerUser), d) ->
  verifyCredentials uid password (g, w)
  = (Ok (getOriginal providerUser),
     (g, verified uid password (getOriginal providerUser) d g w)).
Proof.
  intros H. unfold_guard. cbn. now rewrite H.
Qed.

(** X2.  [attempt] reaches [login] only with verified credentials: without a
    match it ends as [verifyCredentials] does, with no [login_attempted]
    event, no adapter call and the session untouched; with a match it is
    [login] of the user the provider returned, run after the verification. *)
Theorem attempt_logs_in_only_verified uid password remember g w :
  (forall d,
      providerVerifyCredentials (userProvider g) uid password (db w) = (Ok None, d) ->
      exists w',
        attempt P uid password remember (g, w) = (Err invalidCredentials, (g, w'))
        /\ session w' = session w
        /\ responseCookies w' = responseCookies w
        /\ trace w' = (trace w ++
             [Call (CallVerifyCredentials User uid password);
              Emit (login_failed User (name g) invalidCredentials)])%list)
  /\ (forall providerUser d,
      providerVerifyCredentials (userProvider g) uid password (db w)
      = (Ok (Some providerUser), d) ->
      attempt P uid password remember (g, w)
      = login P (getOriginal providerUser) remember
          (g, verified uid password (getOriginal providerUser) d g w)).
Proof.
  split.
  - intros d Hnone. unfold attempt, bind.
    unfold_guard. cbn. rewrite Hnone. cbn.
    eexists. split; [reflexivity|]. cbn. do 2 (split; [reflexivity|]).
    now rewrite <- app_assoc.
  - intros pu d Hsome. unfold attempt, bind.
    now rewrite (verifyCredentials_match _ _ _ _ _ _ Hsome).
Qed.

(** X3.  [loginViaId] with an identifier the provider does not know fails with
    the invalid-credentials error after one lookup and the [login_failed]
    event; [login] is not entered and the session is untouched. *)
Theorem loginViaId_unknown_id uid remember g w d :
  findById (userProvider g) uid (db w) = (Ok None, d) ->
  exists w',
    loginViaId P uid remember (g, w) = (Err invalidCredentials, (g, w'))
    /\ session w' = session w
    /\ responseCookies w' = responseCookies w
    /\ trace w' = (trace w ++
         [Call (CallFindById User uid);
          Emit (login_failed User (name g) invalidCredentials)])%list.
Proof.
  intros Hnone. unfold loginViaId, loginFailed, emit, await, bind, this, ret,
    throw, effect. cbn. rewrite Hnone. cbn.
  eexists. split; [reflexivity|]. cbn. do 2 (split; [reflexivity|]).
  now rewrite <- app_assoc.
Qed.

End Credentials.

Lemma verifyCredentials_only_verifies_witness :
  let g := Demo.web Demo.fullProvider in
  let w := Demo.request true ∅ ∅ (Demo.store true) 0 in
  exists w', verifyCredentials "virk" "wrong" (g, w) = (Err invalidCredentials, (g, w'))
             /\ db w' = Demo.store true.
Proof.
  intros g w.
  destruct (proj2 (verifyCredentials_only_verifies _ _ "virk" "wrong" g w)
              (Demo.store true) eq_refl) as (w' & H & Hd & _).
  exists w'. split; [exact H|exact Hd].
Defined.

Lemma attempt_logs_in_only_verified_witness :
  let g := Demo.web Demo.fullProvider in
  let w := Demo.request true ∅ ∅ (Demo.store true) 0 in
  exists w', attempt Demo.platform "virk" "wrong" true (g, w)
             = (Err invalidCredentials, (g, w'))
             /\ session w' = session w.
Proof.
  intros g w.
  destruct (proj1 (attempt_logs_in_only_verified _ _ Demo.platform "virk" "wrong" true g w)
              (Demo.store true) eq_refl) as (w' & H & Hs & _).
  exists w'. split; [exact H|exact Hs].
Defined.

Lemma loginViaId_unknown_id_witness :
  let g := Demo.web Demo.fullProvider in
  let w := Demo.request true ∅ ∅ (Demo.store true) 0 in
  exists w', loginViaId Demo.platform (IdNum 9) false (g, w)
             = (Err invalidCredentials, (g, w'))
             /\ session w' = session w.
Proof.
  intros g w.
  destruct (loginViaId_unknown_id _ _ Demo.platform (IdNum 9) false g w
              (Demo.store true) eq_refl) as (w' & H & Hs & _).
  exists w'. split; [exact H|exact Hs].
Defined.

Section LoginRemember.

Variables User DB : Type.
Context {truthyUser : Truthy User}.
Variable P : Platform.
Implicit Types (g : Guard User DB) (w : World User DB) (u : User).

(** X4.  A [login] with [remember] that returns has created one token, for the
    identifier of the adapter, under the name of this guard and with the
    configured age, has handed it to the provider first and has then set the
    remember-me cookie to the value the token releases, all before the
    session is written. *)
Theorem login_remember_issues_token u g w u' g' w' :
  login P u true (g, w) = (Ok u', (g', w')) ->
  exists providerUser d token released,
    createUserForGuard (userProvider g) u (db w) = (Ok providerUser, d)
    /\ token = RememberMeToken.create P (now w) (randomString P (entropy w))
                 (randomString P (S (entropy w))) (getId providerUser)
                 (tokenAge g) (name g)
    /\ RememberMeToken.value token = Some released
    /\ responseCookies w' !! rememberMeKeyName g
       = Some (CookieSet released (tokenAge g))
    /\ trace w' = (trace w ++
         [Emit (login_attempted (name g) u);
          Call (CallCreateUserForGuard u);
          Call (CallCreateRememberMeToken User token);
          EncryptedCookie User (rememberMeKeyName g) released (tokenAge g);
          SessionPut User (sessionKeyName g) (getId providerUser);
          SessionRegenerate User;
          Emit (login_succeeded (name g) u (sessionId (session w')))])%list.
Proof.
  unfold_guard. intros H. run_guard.
  eexists _, _, _, _. split; [eassumption|]. split; [reflexivity|].
  split; [reflexivity|]. split; [apply lookup_insert_eq|].
  now repeat rewrite <- app_assoc.
Qed.

(** X5.  When the provider rejects the new token, [login] fails with the
    provider's error before any cookie is set and before the session is
    written; the guard is as before. *)
Theorem login_remember_rejected u g w providerUser d create e d' :
  hasSession w = true ->
  createUserForGuard (userProvider g) u (db w) = (Ok providerUser, d) ->
  createRememberMeToken (userProvider g) = Some create ->
  create (RememberMeToken.create P (now w) (randomString P (entropy w))
            (randomString P (S (entropy w))) (getId providerUser)
            (tokenAge g) (name g)) d = (Err e, d') ->
  exists w',
    login P u true (g, w) = (Err e, (g, w'))
    /\ session w' = session w
    /\ responseCookies w' = responseCookies w
    /\ db w' = d'.
Proof.
  intros Hs Hc Hcreate Hreject. unfold_guard. cbn.
  rewrite Hs. cbn. rewrite Hc. cbn. rewrite Hcreate. cbn. rewrite Hreject. cbn.
  eexists. split; [reflexivity|]. cbn. repeat split.
Qed.

(** X6.  Without a session on the context every method that needs one fails
    with the runtime exception before it reaches the provider or the store:
    [login] has emitted [login_attempted] and nothing else, [authenticate]
    has raised its flag and nothing else, [logout] has done nothing; [check]
    lets the exception through. *)
Theorem session_required g w :
  hasSession w = false ->
  (forall u remember,
      login P u remember (g, w)
      = (Err sessionMissing, (g, record (Emit (login_attempted (name g) u)) w)))
  /\ (authenticationAttempted g = false ->
      authenticate P (g, w)
      = (Err sessionMissing, (set_authenticationAttempted true g, w))
      /\ check P (g, w)
         = (Err sessionMissing, (set_authenticationAttempted true g, w)))
  /\ logout P (g, w) = (Err sessionMissing, (g, w)).
Proof.
  intros Hs. split; [|split].
  - intros u remember. unfold_guard. cbn. rewrite Hs. reflexivity.
  - intros Hflag. unfold check. unfold_guard. cbn. rewrite Hflag. cbn.
    rewrite Hs. split; reflexivity.
  - unfold_guard. cbn. rewrite Hs. reflexivity.
Qed.

End LoginRemember.

Lemma login_remember_issues_token_witness :
  let g := Demo.web Demo.fullProvider in
  let w := Demo.request true ∅ ∅ (Demo.store true) 5 in
  let out := snd (login Demo.platform "virk" true (g, w)) in
  responseCookies (snd out) !! "remember_web" = Some (CookieSet "r0.r1" (DStr "2years")).
Proof.
  intros g w out.
  destruct (login_remember_issues_token _ _ Demo.platform "virk" g w "virk"
              (fst out) (snd out))
    as (pu & d & token & released & Hc & -> & Hv & Hcookie & _).
  { vm_compute. reflexivity. }
  injection Hv as <-. exact Hcookie.
Defined.

Lemma login_remember_rejected_witness :
  let g := Demo.web Demo.fullProvider in
  let w := Demo.request true ∅ ∅
             {| Demo.users := [(1, "virk")]; Demo.tokens := []; Demo.online := true |} 5 in
  let failing : Provider Demo.User Demo.DB :=
    {| createUserForGuard := createUserForGuard Demo.fullProvider;
       findById := findById Demo.fullProvider;
       providerVerifyCredentials := providerVerifyCredentials Demo.fullProvider;
       createRememberMeToken := Some (fun _ d => (Err Demo.unavailable, d));
       findRememberMeTokenBySeries := None;
       providerRecycleRememberMeToken := None;
       deleteRememberMeTokenBySeries := None |} in
  exists w', login Demo.platform "virk" true (Demo.web failing, w)
             = (Err Demo.unavailable, (Demo.web failing, w'))
             /\ responseCookies w' = ∅.
Proof.
  intros g w failing.
  destruct (login_remember_rejected _ _ Demo.platform "virk" (Demo.web failing) w
              {| getId := IdNum 1; getOriginal := "virk" |} (db w)
              (fun _ d => (Err Demo.unavailable, d)) Demo.unavailable (db w)
              eq_refl eq_refl eq_refl eq_refl) as (w' & H & _ & Hc & _).
  exists w'. split; [exact H|exact Hc].
Defined.

Lemma session_required_witness :
  let g := Demo.web Demo.fullProvider in
  let w := Demo.request false ∅ ∅ (Demo.store true) 0 in
  logout Demo.platform (g, w) = (Err sessionMissing, (g, w)).
Proof.
  intros g w.
  exact (proj2 (proj2 (session_required _ _ Demo.platform g w eq_refl))).
Defined.

Section FirstAuthenticate.

Variables User DB : Type.
Context {truthyUser : Truthy User}.
Variable P : Platform.
Implicit Types (g : Guard User DB) (w : World User DB) (id : Ident).

(** X7.  On a first call with a truthy identifier in the session that the
    provider resolves, [authenticate] returns the user after exactly one
    provider call; the request is authenticated, not through the remember-me
    cookie, and neither the session nor the response cookies are touched. *)
Theorem authenticate_via_session_id g w id providerUser d :
  authenticationAttempted g = false ->
  hasSession w = true ->
  values (session w) !! sessionKeyName g = Some id ->
  truthy_id id = true ->
  findById (userProvider g) id (db w) = (Ok (Some providerUser), d) ->
  exists g' w',
    authenticate P (g, w) = (Ok (getOriginal providerUser), (g', w'))
    /\ user g' = Some (getOriginal providerUser)
    /\ isAuthenticated g' = true
    /\ viaRemember g' = false
    /\ isLoggedOut g' = false
    /\ session w' = session w
    /\ responseCookies w' = responseCookies w
    /\ trace w' = (trace w ++
         [Emit (authentication_attempted User (name g) (sessionId (session w)));
          Call (CallFindById User id);
          Emit (authentication_succeeded (name g) (sessionId (session w))
                  (Some (getOriginal providerUser)) None)])%list.
Proof.
  intros Hflag Hs Hid Htruthy Hfind. unfold_guard. cbn.
  rewrite Hflag. cbn. rewrite Hs. cbn. rewrite Hid. cbn. rewrite Htruthy.
  cbn. rewrite Hfind. cbn.
  eexists _, _. split; [reflexivity|]. cbn.
  do 6 (split; [reflexivity|]). now repeat rewrite <- app_assoc.
Qed.

(** X8.  On a first call with no truthy identifier in the session and no truthy
    remember-me cookie on the request, [authenticate] fails with the
    unauthorized error and [check] answers false; the provider is not asked,
    and the session, the cookies and the user of the guard stay as they are. *)
Theorem authenticate_anonymous g w :
  authenticationAttempted g = false ->
  hasSession w = true ->
  if_truthy truthy_id (values (session w) !! sessionKeyName g) = None ->
  if_truthy truthy_str (requestCookies w !! rememberMeKeyName g) = None ->
  exists g' w',
    authenticate P (g, w) = (Err unauthorized, (g', w'))
    /\ check P (g, w) = (Ok false, (g', w'))
    /\ user g' = user g
    /\ isAuthenticated g' = isAuthenticated g
    /\ session w' = session w
    /\ responseCookies w' = responseCookies w
    /\ db w' = db w
    /\ trace w' = (trace w ++
         [Emit (authentication_attempted User (name g) (sessionId (session w)));
          Emit (authentication_failed User (name g) unauthorized
                  (sessionId (session w)))])%list.
Proof.
  intros Hflag Hs Hid Hcookie. unfold check. unfold_guard. cbn.
  rewrite Hflag. cbn. rewrite Hs. cbn. rewrite Hid. cbn. rewrite Hcookie. cbn.
  eexists _, _. do 7 (split; [reflexivity|]). cbn.
  now repeat rewrite <- app_assoc.
Qed.

(** X9.  A first [authenticate] writes the session and the response cookies only
    on the path that marks the request authenticated: if [isAuthenticated]
    is still false afterwards, the call has failed and the session, the
    response cookies and the user of the guard are as before. *)
Theorem authenticate_writes_only_when_authenticated g w r g' w' :
  authenticationAttempted g = false ->
  authenticate P (g, w) = (r, (g', w')) ->
  isAuthenticated g' = false ->
  (exists e, r = Err e)
  /\ session w' = session w
  /\ responseCookies w' = responseCookies w
  /\ user g' = user g.
Proof.
  intros Hflag. unfold_guard. cbn. rewrite Hflag. cbn. intros H Hauth.
  run_guard; eauto.
Qed.

(** X10.  A first [authenticate] that returns a user leaves that user on the
    guard, the request authenticated and [isLoggedOut] false; the session is
    untouched unless the user came through the remember-me cookie, in which
    case the session key holds an identifier, the session was regenerated
    after it was written, and the remember-me cookie is set on the response
    with the configured age. *)
Theorem authenticate_success_state g w u g' w' :
  authenticationAttempted g = false ->
  authenticate P (g, w) = (Ok u, (g', w')) ->
  user g' = Some u
  /\ isAuthenticated g' = true
  /\ isLoggedOut g' = false
  /\ (viaRemember g' = false -> session w' = session w
                                /\ responseCookies w' = responseCookies w)
  /\ (viaRemember g' = true ->
      exists id, values (session w') !! sessionKeyName g = Some id
                 /\ (exists before after,
                        trace w' = (before ++ SessionPut User (sessionKeyName g) id
                                    :: SessionRegenerate User :: after)%list)
                 /\ (exists issued,
                        responseCookies w' !! rememberMeKeyName g
                        = Some (CookieSet issued (tokenAge g)))).
Proof.
  intros Hflag. unfold_guard. cbn. rewrite Hflag. cbn. intros H.
  run_guard.
  all: do 3 (split; [reflexivity|]).
  all: split; [intros [=]; auto|intros [=]].
  all: eexists; split; [apply lookup_insert_eq|].
  all: split; [|rewrite lookup_insert_eq; eexists; reflexivity].
  all: repeat rewrite <- app_assoc; cbn [app].
  all: match goal with
       | |- exists b a, (?t ++ ?x1 :: ?x2 :: ?x3 :: SessionPut _ _ _ :: _ :: ?rest)%list = _ =>
           exists (t ++ [x1; x2; x3])%list, rest;
           now repeat rewrite <- app_assoc
       end.
Qed.

End FirstAuthenticate.

Lemma authenticate_via_session_id_witness :
  let g := Demo.web Demo.fullProvider in
  let w := Demo.request true {[ "auth_web" := IdNum 2 ]} ∅ (Demo.store true) 0 in
  exists g' w', authenticate Demo.platform (g, w) = (Ok "romain", (g', w'))
                /\ viaRemember g' = false /\ session w' = session w.
Proof.
  intros g w.
  destruct (authenticate_via_session_id _ _ Demo.platform g w (IdNum 2)
              {| getId := IdNum 2; getOriginal := "romain" |} (Demo.store true)
              eq_refl eq_refl eq_refl eq_refl eq_refl)
    as (g' & w' & H & _ & _ & Hv & _ & Hs & _).
  exists g', w'. split; [exact H|]. split; [exact Hv|exact Hs].
Defined.

Lemma authenticate_anonymous_witness :
  let g := Demo.web Demo.fullProvider in
  let w := Demo.request true ∅ ∅ (Demo.store true) 0 in
  exists s', check Demo.platform (g, w) = (Ok false, s').
Proof.
  intros g w.
  destruct (authenticate_anonymous _ _ Demo.platform g w
              eq_refl eq_refl eq_refl eq_refl) as (g' & w' & _ & H & _).
  exists (g', w'). exact H.
Defined.

Lemma authenticate_writes_only_when_authenticated_witness :
  let g := Demo.web Demo.fullProvider in
  let w := Demo.request true ∅ {[ "remember_web" := "s1.bad" ]} (Demo.store true) 0 in
  let out := authenticate Demo.platform (g, w) in
  session (snd (snd out)) = session w
  /\ responseCookies (snd (snd out)) = responseCookies w.
Proof.
  intros g w out.
  destruct (authenticate_writes_only_when_authenticated _ _ Demo.platform g w
              (fst out) (fst (snd out)) (snd (snd out)))
    as (_ & Hs & Hc & _); [reflexivity|vm_compute; reflexivity|reflexivity|].
  split; [exact Hs|exact Hc].
Defined.

Lemma authenticate_success_state_witness :
  let g := Demo.web Demo.fullProvider in
  let w := Demo.request true ∅ {[ "remember_web" := "s1.v1" ]} (Demo.store true) 1030000 in
  let out := authenticate Demo.platform (g, w) in
  user (fst (snd out)) = Some "virk" /\ isAuthenticated (fst (snd out)) = true.
Proof.
  intros g w out.
  destruct (authenticate_success_state _ _ Demo.platform g w "virk"
              (fst (snd out)) (snd (snd out)))
    as (Hu & Ha & _); [reflexivity|vm_compute; reflexivity|].
  split; [exact Hu|exact Ha].
Defined.

Section RejectedCookies.

Variables User DB : Type.
Context {truthyUser : Truthy User}.
Variable P : Platform.
Implicit Types (g : Guard User DB) (w : World User DB).

(** X11.  On a first call that falls through to the remember-me cookie, a cookie
    that does not decode is refused without asking the provider, and a cookie
    whose secret does not match the hash of the token found under its series
    is refused after that one lookup, before any user is looked up; both end
    in the unauthorized error with session and response cookies untouched. *)
Theorem authenticate_rejects_cookie g w cookie find recycle :
  authenticationAttempted g = false ->
  hasSession w = true ->
  if_truthy truthy_id (values (session w) !! sessionKeyName g) = None ->
  requestCookies w !! rememberMeKeyName g = Some cookie ->
  truthy_str cookie = true ->
  findRememberMeTokenBySeries (userProvider g) = Some find ->
  providerRecycleRememberMeToken (userProvider g) = Some recycle ->
  (decode P cookie = None ->
   exists g' w',
     authenticate P (g, w) = (Err unauthorized, (g', w'))
     /\ session w' = session w /\ responseCookies w' = responseCookies w
     /\ db w' = db w
     /\ trace w' = (trace w ++
          [Emit (authentication_attempted User (name g) (sessionId (session w)));
           Emit (authentication_failed User (name g) unauthorized
                   (sessionId (session w)))])%list)
  /\ (forall decodedSeries decodedValue token d,
         decode P cookie = Some (decodedSeries, decodedValue) ->
         find decodedSeries (db w) = (Ok (Some token), d) ->
         RememberMeToken.verify P token decodedValue = false ->
         exists g' w',
           authenticate P (g, w) = (Err unauthorized, (g', w'))
           /\ session w' = session w /\ responseCookies w' = responseCookies w
           /\ user g' = user g
           /\ trace w' = (trace w ++
                [Emit (authentication_attempted User (name g) (sessionId (session w)));
                 Call (CallFindRememberMeTokenBySeries User decodedSeries);
                 Emit (authentication_failed User (name g) unauthorized
                         (sessionId (session w)))])%list).
Proof.
  intros Hflag Hs Hid Hcookie Htruthy Hfind Hrecycle. split.
  - intros Hdecode. unfold_guard. cbn.
    rewrite Hflag. cbn. rewrite Hs. cbn. rewrite Hid. cbn. rewrite Hcookie.
    cbn. rewrite Htruthy. cbn. rewrite Hfind, Hrecycle. cbn. rewrite Hdecode.
    cbn. eexists _, _. split; [reflexivity|]. cbn.
    do 3 (split; [reflexivity|]). now repeat rewrite <- app_assoc.
  - intros decodedSeries decodedValue token d Hdecode Htoken Hverify.
    unfold_guard. cbn.
    rewrite Hflag. cbn. rewrite Hs. cbn. rewrite Hid. cbn. rewrite Hcookie.
    cbn. rewrite Htruthy. cbn. rewrite Hfind, Hrecycle. cbn. rewrite Hdecode.
    cbn. rewrite Htoken. cbn. rewrite Hverify. cbn.
    eexists _, _. split; [reflexivity|]. cbn.
    do 3 (split; [reflexivity|]). now repeat rewrite <- app_assoc.
Qed.

End RejectedCookies.

Lemma authenticate_rejects_cookie_witness :
  let g := Demo.web Demo.fullProvider in
  let w := Demo.request true ∅ {[ "remember_web" := "s1.guess" ]} (Demo.store true) 0 in
  exists s', authenticate Demo.platform (g, w) = (Err unauthorized, s').
Proof.
  intros g w.
  destruct (proj2 (authenticate_rejects_cookie _ _ Demo.platform g w "s1.guess"
              (fun s => Demo.query (fun d => (Demo.lookup_token s (Demo.tokens d), d)))
              (fun tok => Demo.query (fun d => (tt, Demo.with_tokens
                 (tok :: Demo.drop_token (RememberMeToken.series tok) (Demo.tokens d)) d)))
              eq_refl eq_refl eq_refl eq_refl eq_refl eq_refl eq_refl)
              "s1" "guess" Demo.storedToken (Demo.store true)
              eq_refl eq_refl eq_refl) as (g' & w' & H & _).
  exists (g', w'). exact H.
Defined.

Section RememberPath.

Variables User DB : Type.
Context {truthyUser : Truthy User}.
Variable P : Platform.
Variables (g : Guard User DB) (w : World User DB).
Variables (cookie decodedSeries decodedValue : string).
Variable find : string -> Async DB (option RememberMeToken.t).
Variable recycle : RememberMeToken.t -> Async DB unit.
Variables (token : RememberMeToken.t) (d1 d2 : DB).
Variable providerUser : SessionGuardUser User.

(** The request is a first call that falls through to a cookie which
    decodes to the series of a token of this guard, the secret matches the
    hash, and the user of the token exists. *)
Hypothesis Hfirst : authenticationAttempted g = false.
Hypothesis Hsession : hasSession w = true.
Hypothesis Hnoid :
  if_truthy truthy_id (values (session w) !! sessionKeyName g) = None.
Hypothesis Hcookie : requestCookies w !! rememberMeKeyName g = Some cookie.
Hypothesis Htruthy : truthy_str cookie = true.
Hypothesis Hfind : findRememberMeTokenBySeries (userProvider g) = Some find.
Hypothesis Hrecycle : providerRecycleRememberMeToken (userProvider g) = Some recycle.
Hypothesis Hdecode : decode P cookie = Some (decodedSeries, decodedValue).
Hypothesis Htoken : find decodedSeries (db w) = (Ok (Some token), d1).
Hypothesis Hverify : RememberMeToken.verify P token decodedValue = true.
Hypothesis Hguard : RememberMeToken.guard token = name g.
Hypothesis Huser :
  findById (userProvider g) (RememberMeToken.userId token) d1
  = (Ok (Some providerUser), d2).

Ltac enter_remember_path :=
  unfold_guard; cbn;
  rewrite Hfirst; cbn; rewrite Hsession; cbn; rewrite Hnoid; cbn;
  rewrite Hcookie; cbn; rewrite Htruthy; cbn; rewrite Hfind, Hrecycle; cbn;
  rewrite Hdecode; cbn; rewrite Htoken; cbn;
  rewrite Hverify, Hguard, String.eqb_refl; cbn; rewrite Huser; cbn;
  rewrite Hsession; cbn.

Ltac same_age :=
  repeat match goal with
         | |- context [tokenAge ?x] =>
             lazymatch x with
             | g => fail
             | _ => change (tokenAge x) with (tokenAge g)
             end
         end.

(** Up to the buffer date the call returns the user, with a fresh session
    and the cookie of the request on the response. *)
Lemma authenticate_via_cookie_within_buffer :
  now w <= updatedAtWithBuffer P token ->
  exists g' w',
    authenticate P (g, w) = (Ok (getOriginal providerUser), (g', w'))
    /\ user g' = Some (getOriginal providerUser)
    /\ isAuthenticated g' = true
    /\ viaRemember g' = true
    /\ isLoggedOut g' = false
    /\ values (session w') = <[sessionKeyName g := getId providerUser]> (values (session w))
    /\ sessionId (session w') = randomString P (entropy w)
    /\ responseCookies w'
       = <[rememberMeKeyName g := CookieSet cookie (tokenAge g)]> (responseCookies w)
    /\ db w' = d2
    /\ trace w' = (trace w ++
         [Emit (authentication_attempted User (name g) (sessionId (session w)));
          Call (CallFindRememberMeTokenBySeries User decodedSeries);
          Call (CallFindById User (RememberMeToken.userId token));
          SessionPut User (sessionKeyName g) (getId providerUser);
          SessionRegenerate User;
          Emit (authentication_succeeded (name g) (sessionId (session w))
                  (Some (getOriginal providerUser)) (Some token));
          EncryptedCookie User (rememberMeKeyName g) cookie (tokenAge g)])%list.
Proof.
  intros Hnow. enter_remember_path.
  destruct (Z.gtb_spec (now w) (updatedAtWithBuffer P token)); [lia|]. cbn.
  eexists _, _. split; [reflexivity|]. cbn.
  do 8 (split; [reflexivity|]). now repeat rewrite <- app_assoc.
Qed.

(** X12.  A remember-me authentication whose checks pass returns the user
    of the token, marks the request authenticated through the cookie, stores
    the identifier of the user under the session key of the guard and
    regenerates the session.  Up to the buffer date of the token the provider
    is not asked to recycle and the remember-me cookie is set to the value
    received; past it, when the provider's [recycleRememberMeToken] resolves,
    the refreshed token has been handed to the provider and the cookie is set
    to the value it releases. *)
Theorem authenticate_via_remember_cookie :
  (now w <= updatedAtWithBuffer P token ->
   exists g' w',
     authenticate P (g, w) = (Ok (getOriginal providerUser), (g', w'))
     /\ user g' = Some (getOriginal providerUser)
     /\ isAuthenticated g' = true
     /\ viaRemember g' = true
     /\ isLoggedOut g' = false
     /\ values (session w') !! sessionKeyName g = Some (getId providerUser)
     /\ sessionId (session w') = randomString P (entropy w)
     /\ responseCookies w' !! rememberMeKeyName g
        = Some (CookieSet cookie (tokenAge g))
     /\ db w' = d2
     /\ skipn (length (trace w) + 6) (trace w')
        = [EncryptedCookie User (rememberMeKeyName g) cookie (tokenAge g)])
  /\ (now w > updatedAtWithBuffer P token ->
      forall d3,
        let token' := RememberMeToken.refresh P (now w)
                        (randomString P (S (entropy w))) (tokenAge g) token in
        recycle token' d2 = (Ok tt, d3) ->
        exists g' w',
          authenticate P (g, w) = (Ok (getOriginal providerUser), (g', w'))
          /\ user g' = Some (getOriginal providerUser)
          /\ isAuthenticated g' = true
          /\ viaRemember g' = true
          /\ isLoggedOut g' = false
          /\ values (session w') !! sessionKeyName g = Some (getId providerUser)
          /\ sessionId (session w') = randomString P (entropy w)
          /\ responseCookies w' !! rememberMeKeyName g
             = Some (CookieSet (encode P (RememberMeToken.series token)
                                  (randomString P (S (entropy w))))
                       (tokenAge g))
          /\ db w' = d3
          /\ skipn (length (trace w) + 6) (trace w')
             = [Call (CallRecycleRememberMeToken User token');
                EncryptedCookie User (rememberMeKeyName g)
                  (encode P (RememberMeToken.series token)
                     (randomString P (S (entropy w))))
                  (tokenAge g)]).
Proof.
  split.
  - intros Hearly.
    destruct (authenticate_via_cookie_within_buffer Hearly)
      as (g' & w' & Ha & Hu & Hau & Hv & Ho & Hvals & Hsid & Hc & Hdb & Htrace).
    exists g', w'. split; [exact Ha|].
    do 4 (split; [assumption|]).
    split; [rewrite Hvals; apply lookup_insert_eq|].
    split; [exact Hsid|].
    split; [rewrite Hc; apply lookup_insert_eq|].
    split; [exact Hdb|].
    rewrite Htrace, skipn_app, skipn_all2 by lia.
    replace (length (trace w) + 6 - length (trace w))%nat with 6%nat by lia.
    reflexivity.
  - intros Hlate d3 token' Hwrite. enter_remember_path.
    destruct (Z.gtb_spec (now w) (updatedAtWithBuffer P token)); [|lia]. cbn.
    rewrite Hrecycle. cbn. same_age. fold token'. rewrite Hwrite. cbn.
    eexists _, _. split; [reflexivity|]. cbn.
    do 4 (split; [reflexivity|]).
    split; [apply lookup_insert_eq|]. split; [reflexivity|].
    split; [apply lookup_insert_eq|]. split; [reflexivity|].
    repeat rewrite <- app_assoc. cbn [app].
    rewrite skipn_app, skipn_all2 by lia.
    replace (length (trace w) + 6 - length (trace w))%nat with 6%nat by lia.
    reflexivity.
Qed.

(** X13.  When the buffer date of the token has passed and the provider
    rejects the write, [authenticate] fails with the provider's error
    although the request has already been marked authenticated: the user is
    on the guard, the session holds the identifier and no remember-me cookie
    has been set.  A second [authenticate] then returns the user, if the user
    is truthy, and raises the unauthorized error otherwise. *)
Theorem authenticate_fails_after_authenticating e d3 :
  now w > updatedAtWithBuffer P token ->
  recycle (RememberMeToken.refresh P (now w) (randomString P (S (entropy w)))
             (tokenAge g) token) d2 = (Err e, d3) ->
  exists g' w',
    authenticate P (g, w) = (Err e, (g', w'))
    /\ isAuthenticated g' = true
    /\ user g' = Some (getOriginal providerUser)
    /\ values (session w') !! sessionKeyName g = Some (getId providerUser)
    /\ responseCookies w' = responseCookies w
    /\ authenticate P (g', w')
       = (if truthy (getOriginal providerUser)
          then Ok (getOriginal providerUser)
          else Err unauthorized, (g', w')).
Proof.
  intros Hlate Hreject. enter_remember_path.
  destruct (Z.gtb_spec (now w) (updatedAtWithBuffer P token)); [|lia]. cbn.
  rewrite Hrecycle. cbn. same_age. rewrite Hreject. cbn.
  eexists _, _. split; [reflexivity|]. cbn.
  do 2 (split; [reflexivity|]). split; [apply lookup_insert_eq|].
  split; [reflexivity|].
  now destruct (truthy (getOriginal providerUser)).
Qed.

End RememberPath.

Lemma authenticate_via_remember_cookie_witness :
  let g := Demo.web Demo.fullProvider in
  let w := Demo.request true ∅ {[ "remember_web" := "s1.v1" ]} (Demo.store true) 1030000 in
  exists g' w', authenticate Demo.platform (g, w) = (Ok "virk", (g', w'))
                /\ viaRemember g' = true
                /\ responseCookies w' !! "remember_web"
                   = Some (CookieSet "s1.v1" (DStr "2years")).
Proof.
  intros g w.
  destruct (proj1 (authenticate_via_remember_cookie Demo.User Demo.DB Demo.platform g w
              "s1.v1" "s1" "v1"
              (fun s => Demo.query (fun d => (Demo.lookup_token s (Demo.tokens d), d)))
              (fun tok => Demo.query (fun d => (tt, Demo.with_tokens
                 (tok :: Demo.drop_token (RememberMeToken.series tok) (Demo.tokens d)) d)))
              Demo.storedToken (Demo.store true) (Demo.store true)
              {| getId := IdNum 1; getOriginal := "virk" |}
              eq_refl eq_refl eq_refl eq_refl eq_refl eq_refl eq_refl eq_refl
              eq_refl eq_refl eq_refl eq_refl))
    as (g' & w' & H & _ & _ & Hv & _ & _ & _ & Hc & _).
  { vm_compute. discriminate. }
  exists g', w'. split; [exact H|]. split; [exact Hv|exact Hc].
Defined.

Lemma authenticate_fails_after_authenticating_witness :
  let failing : Provider Demo.User Demo.DB :=
    {| createUserForGuard := createUserForGuard Demo.fullProvider;
       findById := findById Demo.fullProvider;
       providerVerifyCredentials := providerVerifyCredentials Demo.fullProvider;
       createRememberMeToken := createRememberMeToken Demo.fullProvider;
       findRememberMeTokenBySeries := findRememberMeTokenBySeries Demo.fullProvider;
       providerRecycleRememberMeToken := Some (fun _ d => (Err Demo.unavailable, d));
       deleteRememberMeTokenBySeries := None |} in
  let g := Demo.web failing in
  let w := Demo.request true ∅ {[ "remember_web" := "s1.v1" ]} (Demo.store true) 1090000 in
  exists g' w', authenticate Demo.platform (g, w) = (Err Demo.unavailable, (g', w'))
                /\ isAuthenticated g' = true
                /\ authenticate Demo.platform (g', w') = (Ok "virk", (g', w')).
Proof.
  intros failing g w.
  destruct (authenticate_fails_after_authenticating Demo.User Demo.DB Demo.platform g w
              "s1.v1" "s1" "v1"
              (fun s => Demo.query (fun d => (Demo.lookup_token s (Demo.tokens d), d)))
              (fun _ d => (Err Demo.unavailable, d))
              Demo.storedToken (Demo.store true) (Demo.store true)
              {| getId := IdNum 1; getOriginal := "virk" |}
              eq_refl eq_refl eq_refl eq_refl eq_refl eq_refl eq_refl eq_refl
              eq_refl eq_refl eq_refl eq_refl Demo.unavailable (Demo.store true)
              eq_refl eq_refl)
    as (g' & w' & H & Ha & _ & _ & _ & Hagain).
  exists g', w'. split; [exact H|]. split; [exact Ha|exact Hagain].
Defined.

Section Composition.

Variables User DB : Type.
Context {truthyUser : Truthy User}.
Variable P : Platform.
Implicit Types (g : Guard User DB) (w : World User DB) (u : User).

(** X14.  The cookie that [login] issues with [remember] opens a later request:
    the response carries the encoding of the series and the secret of the
    token handed to the provider; and on a request that shows this cookie to
    a new guard of the same name, if the codec reads the cookie back and the
    provider returns, under that series, a token with the persisted hash
    and guard whose buffer date has not passed and whose user exists, then
    [authenticate] returns that user through the remember-me path. *)
Theorem remember_cookie_round_trip u g w u' g1 w1 providerUser d :
  login P u true (g, w) = (Ok u', (g1, w1)) ->
  createUserForGuard (userProvider g) u (db w) = (Ok providerUser, d) ->
  let series := randomString P (entropy w) in
  let secret := randomString P (S (entropy w)) in
  let token := RememberMeToken.create P (now w) series secret
                 (getId providerUser) (tokenAge g) (name g) in
  let cookie := encode P series secret in
  (responseCookies w1 !! rememberMeKeyName g = Some (CookieSet cookie (tokenAge g))
   /\ In (Call (CallCreateRememberMeToken User token)) (trace w1))
  /\ (forall w2 find recycle stored d1 providerUser2 d2,
         decode P cookie = Some (series, secret) ->
         truthy_str cookie = true ->
         hasSession w2 = true ->
         if_truthy truthy_id (values (session w2) !! sessionKeyName g) = None ->
         requestCookies w2 !! rememberMeKeyName g = Some cookie ->
         findRememberMeTokenBySeries (userProvider g) = Some find ->
         providerRecycleRememberMeToken (userProvider g) = Some recycle ->
         find series (db w2) = (Ok (Some stored), d1) ->
         RememberMeToken.hash stored = RememberMeToken.hash token ->
         RememberMeToken.guard stored = RememberMeToken.guard token ->
         findById (userProvider g) (RememberMeToken.userId stored) d1
         = (Ok (Some providerUser2), d2) ->
         now w2 <= updatedAtWithBuffer P stored ->
         exists g' w',
           authenticate P (newGuard (name g) (config g) (userProvider g), w2)
           = (Ok (getOriginal providerUser2), (g', w'))
           /\ viaRemember g' = true
           /\ isAuthenticated g' = true).
Proof.
  intros Hlogin Hadapter series secret token cookie. split.
  - revert Hlogin. unfold_guard. cbn. intros H. run_guard.
    match goal with
    | Hx : createUserForGuard _ _ _ = (Ok ?a, _) |- _ =>
        lazymatch a with
        | providerUser => fail
        | _ => assert (a = providerUser) as -> by congruence
        end
    end.
    split; [apply lookup_insert_eq|].
    repeat rewrite <- app_assoc. apply in_or_app. right. cbn. auto.
  - intros w2 find recycle stored d1 pu2 d2 Hdecode Htruthy Hs Hnoid Hcookie
      Hfind Hrecycle Hstored Hhash Hguard Huser Hnow.
    destruct (authenticate_via_cookie_within_buffer User DB P
                (newGuard (name g) (config g) (userProvider g)) w2
                cookie series secret find recycle stored d1 d2 pu2)
      as (g' & w' & Ha & _ & Hauth & Hvia & _); try assumption; try reflexivity.
    + unfold RememberMeToken.verify. rewrite Hhash. apply String.eqb_refl.
    + now exists g', w'.
Qed.

(** X15.  After [logout] in a request that had already run [authenticate], the
    guard reports nobody: [authenticate] raises the unauthorized error,
    [check] answers false and [getUserOrFail] fails, whatever the request
    carried and whether or not the deletion of the token went through. *)
Theorem logout_then_authenticate g w r g' w' :
  hasSession w = true ->
  authenticationAttempted g = true ->
  logout P (g, w) = (r, (g', w')) ->
  authenticate P (g', w') = (Err unauthorized, (g', w'))
  /\ check P (g', w') = (Ok false, (g', w'))
  /\ getUserOrFail (g', w') = (Err unauthorized, (g', w')).
Proof.
  intros Hs Hflag. unfold check. unfold_guard. cbn. rewrite Hs. cbn.
  intros H. run_guard; auto.
Qed.

(** X16.  [logout] clears the response cookie but not what the request
    carried, and does not raise the [authenticate] flag.  So when the
    provider cannot delete tokens, [authenticate] has not run yet and the
    buffer date of the token has not passed, a call to it after [logout] in
    the same request finds the remember-me cookie again, logs the user back
    in, writes the session and sets the cookie that [logout] had cleared. *)
Theorem logout_undone_by_first_authenticate
    g w cookie decodedSeries decodedValue find recycle token d1 providerUser d2 :
  deleteRememberMeTokenBySeries (userProvider g) = None ->
  authenticationAttempted g = false ->
  hasSession w = true ->
  requestCookies w !! rememberMeKeyName g = Some cookie ->
  truthy_str cookie = true ->
  findRememberMeTokenBySeries (userProvider g) = Some find ->
  providerRecycleRememberMeToken (userProvider g) = Some recycle ->
  decode P cookie = Some (decodedSeries, decodedValue) ->
  find decodedSeries (db w) = (Ok (Some token), d1) ->
  RememberMeToken.verify P token decodedValue = true ->
  RememberMeToken.guard token = name g ->
  findById (userProvider g) (RememberMeToken.userId token) d1
  = (Ok (Some providerUser), d2) ->
  now w <= updatedAtWithBuffer P token ->
  exists g1 w1 g2 w2,
    logout P (g, w) = (Ok tt, (g1, w1))
    /\ isLoggedOut g1 = true
    /\ responseCookies w1 !! rememberMeKeyName g = Some CookieCleared
    /\ authenticate P (g1, w1) = (Ok (getOriginal providerUser), (g2, w2))
    /\ isLoggedOut g2 = false
    /\ isAuthenticated g2 = true
    /\ values (session w2) !! sessionKeyName g = Some (getId providerUser)
    /\ responseCookies w2 !! rememberMeKeyName g
       = Some (CookieSet cookie (tokenAge g)).
Proof.
  intros Hdel Hflag Hs Hcookie Htruthy Hfind Hrecycle Hdecode Htoken Hverify
    Hguard Huser Hnow.
  assert (exists g1 w1,
             logout P (g, w) = (Ok tt, (g1, w1))
             /\ isLoggedOut g1 = true
             /\ responseCookies w1 !! rememberMeKeyName g = Some CookieCleared
             /\ authenticationAttempted g1 = false
             /\ name g1 = name g /\ config g1 = config g
             /\ userProvider g1 = userProvider g
             /\ hasSession w1 = true
             /\ values (session w1) = delete (sessionKeyName g) (values (session w))
             /\ requestCookies w1 = requestCookies w
             /\ db w1 = db w /\ now w1 = now w)
    as (g1 & w1 & Hl & Hout & Hcleared & Hflag1 & Hn & Hcfg & Hp & Hs1 & Hvals
        & Hreq & Hdb & Hnow1).
  { unfold_guard. cbn. rewrite Hs. cbn. rewrite Hcookie. cbn.
    rewrite Htruthy, Hdel. cbn.
    eexists _, _. split; [reflexivity|]. cbn.
    split; [reflexivity|]. split; [apply lookup_insert_eq|].
    rewrite Hflag, Hs. repeat split. }
  assert (sessionKeyName g1 = sessionKeyName g) as Hkey
    by (unfold sessionKeyName; now rewrite Hn).
  assert (rememberMeKeyName g1 = rememberMeKeyName g) as Hrkey
    by (unfold rememberMeKeyName; now rewrite Hn).
  assert (tokenAge g1 = tokenAge g) as Hage
    by (unfold tokenAge; now rewrite Hcfg).
  destruct (authenticate_via_cookie_within_buffer User DB P g1 w1
              cookie decodedSeries decodedValue find recycle token d1 d2
              providerUser)
    as (g2 & w2 & Ha & _ & Hauth & _ & Hout2 & Hvals2 & _ & Hc2 & _).
  all: rewrite ?Hkey, ?Hrkey, ?Hp, ?Hreq, ?Hdb, ?Hn, ?Hnow1, ?Hvals; try assumption.
  - now rewrite lookup_delete_eq.
  - exists g1, w1, g2, w2.
    split; [exact Hl|]. split; [exact Hout|]. split; [exact Hcleared|].
    split; [exact Ha|]. split; [exact Hout2|]. split; [exact Hauth|].
    rewrite Hkey, Hrkey, Hage in *.
    split; [rewrite Hvals2; apply lookup_insert_eq|].
    rewrite Hc2. apply lookup_insert_eq.
Qed.

(** X17.  [authenticateAsClient] only asks the provider for the adapter: it
    returns the one-entry session that maps the session key of the guard to
    the identifier of the user, emits nothing and writes neither session nor
    cookies.  A request whose session holds that entry is authenticated as
    the user the provider finds under the identifier. *)
Theorem authenticateAsClient_round_trip u g w providerUser d :
  createUserForGuard (userProvider g) u (db w) = (Ok providerUser, d) ->
  exists w',
    authenticateAsClient u (g, w)
    = (Ok {[ sessionKeyName g := getId providerUser ]}, (g, w'))
    /\ session w' = session w
    /\ responseCookies w' = responseCookies w
    /\ trace w' = (trace w ++ [Call (CallCreateUserForGuard u)])%list
    /\ (forall g2 w2 providerUser2 d2,
           name g2 = name g ->
           authenticationAttempted g2 = false ->
           hasSession w2 = true ->
           values (session w2) = {[ sessionKeyName g := getId providerUser ]} ->
           truthy_id (getId providerUser) = true ->
           findById (userProvider g2) (getId providerUser) (db w2)
           = (Ok (Some providerUser2), d2) ->
           fst (authenticate P (g2, w2)) = Ok (getOriginal providerUser2)).
Proof.
  intros Hadapter. unfold authenticateAsClient, await, bind, this, ret. cbn.
  rewrite Hadapter. cbn.
  eexists. split; [reflexivity|]. cbn. do 3 (split; [reflexivity|]).
  intros g2 w2 pu2 d2 Hn Hflag Hs Hvals Htruthy Hfind.
  unfold_guard. cbn. rewrite Hflag. cbn. rewrite Hs. cbn.
  rewrite Hvals. unfold sessionKeyName. rewrite Hn.
  rewrite lookup_singleton_eq. cbn. rewrite Htruthy. cbn. now rewrite Hfind.
Qed.

End Composition.

Lemma remember_cookie_round_trip_witness :
  let g := Demo.web Demo.fullProvider in
  let w := Demo.request true ∅ ∅ (Demo.store true) 5 in
  let after := snd (login Demo.platform "virk" true (g, w)) in
  let w2 := Demo.request true ∅ {[ "remember_web" := "r0.r1" ]} (db (snd after)) 10 in
  responseCookies (snd after) !! "remember_web" = Some (CookieSet "r0.r1" (DStr "2years"))
  /\ exists g' w', authenticate Demo.platform (g, w2) = (Ok "virk", (g', w'))
                   /\ viaRemember g' = true.
Proof.
  intros g w after w2.
  pose proof (remember_cookie_round_trip _ _ Demo.platform "virk" g w "virk"
                (fst after) (snd after)
                {| getId := IdNum 1; getOriginal := "virk" |} (Demo.store true)
                ltac:(vm_compute; reflexivity) eq_refl) as [[Hcookie _] Hnext].
  split; [exact Hcookie|].
  destruct (Hnext w2
              (fun s => Demo.query (fun d => (Demo.lookup_token s (Demo.tokens d), d)))
              (fun tok => Demo.query (fun d => (tt, Demo.with_tokens
                 (tok :: Demo.drop_token (RememberMeToken.series tok) (Demo.tokens d)) d)))
              (RememberMeToken.create Demo.platform 5 "r0" "r1" (IdNum 1)
                 (DStr "2years") "web")
              (db w2) {| getId := IdNum 1; getOriginal := "virk" |} (db w2))
    as (g' & w' & Ha & Hv & _);
    [reflexivity .. | vm_compute; discriminate |].
  exists g', w'. split; [exact Ha|exact Hv].
Defined.

Lemma logout_then_authenticate_witness :
  let g := set_authenticationAttempted true
             (set_user (Some "virk") (Demo.web Demo.fullProvider)) in
  let w := Demo.request true {[ "auth_web" := IdNum 1 ]}
             {[ "remember_web" := "s1.v1" ]} (Demo.store true) 0 in
  let after := snd (logout Demo.platform (g, w)) in
  check Demo.platform after = (Ok false, after).
Proof.
  intros g w after.
  destruct (logout_then_authenticate _ _ Demo.platform g w
              (fst (logout Demo.platform (g, w))) (fst after) (snd after)
              eq_refl eq_refl ltac:(vm_compute; reflexivity)) as (_ & Hc & _).
  destruct after. exact Hc.
Defined.

Lemma logout_undone_by_first_authenticate_witness :
  let g := Demo.web Demo.noDeleteProvider in
  let w := Demo.request true {[ "auth_web" := IdNum 1 ]}
             {[ "remember_web" := "s1.v1" ]} (Demo.store true) 1030000 in
  exists s1 s2,
    logout Demo.platform (g, w) = (Ok tt, s1)
    /\ authenticate Demo.platform s1 = (Ok "virk", s2)
    /\ isLoggedOut (fst s2) = false.
Proof.
  intros g w.
  destruct (logout_undone_by_first_authenticate _ _ Demo.platform g w
              "s1.v1" "s1" "v1"
              (fun s => Demo.query (fun d => (Demo.lookup_token s (Demo.tokens d), d)))
              (fun tok => Demo.query (fun d => (tt, Demo.with_tokens
                 (tok :: Demo.drop_token (RememberMeToken.series tok) (Demo.tokens d)) d)))
              Demo.storedToken (Demo.store true)
              {| getId := IdNum 1; getOriginal := "virk" |} (Demo.store true))
    as (g1 & w1 & g2 & w2 & Hl & _ & _ & Ha & Ho & _);
    [reflexivity .. | vm_compute; discriminate |].
  exists (g1, w1), (g2, w2). split; [exact Hl|]. split; [exact Ha|exact Ho].
Defined.

Lemma authenticateAsClient_round_trip_witness :
  let g := Demo.web Demo.fullProvider in
  let w := Demo.request true ∅ ∅ (Demo.store true) 0 in
  exists w', authenticateAsClient "romain" (g, w)
             = (Ok {[ "auth_web" := IdNum 2 ]}, (g, w'))
             /\ session w' = session w.
Proof.
  intros g w.
  destruct (authenticateAsClient_round_trip _ _ Demo.platform "romain" g w
              {| getId := IdNum 2; getOriginal := "romain" |} (Demo.store true)
              eq_refl) as (w' & H & Hs & _).
  exists w'. split; [exact H|exact Hs].
Defined.

Section Coexistence.

Variables User DB : Type.
Context {truthyUser : Truthy User}.
Variable P : Platform.
Implicit Types (s : St User DB).

Lemma prefixed_inj (prefix a b : string) : prefix +:+ a = prefix +:+ b -> a = b.
Proof.
  induction prefix as [|c prefix IH]; cbn; [auto|].
  intros [= H]. auto.
Qed.

(** X18.  Guards with different names keep apart: whatever public method runs on
    a guard, the session entry and the response cookie that belong to a guard
    of another name are as before. *)
Theorem other_guards_untouched (q : Request User) s (other : string) :
  other <> name (fst s) ->
  values (session (snd (perform P q s))) !! ("auth_" +:+ other)
  = values (session (snd s)) !! ("auth_" +:+ other)
  /\ responseCookies (snd (perform P q s)) !! ("remember_" +:+ other)
     = responseCookies (snd s) !! ("remember_" +:+ other).
Proof.
  intros Hother. destruct s as [g w]. cbn in Hother.
  assert (sessionKeyName g <> "auth_" +:+ other) as Hkey
    by (intros H; apply prefixed_inj in H; congruence).
  assert (rememberMeKeyName g <> "remember_" +:+ other) as Hrkey
    by (intros H; apply prefixed_inj in H; congruence).
  unfold sessionKeyName, rememberMeKeyName in *.
  destruct q; unfold perform, check, attempt, loginViaId; unfold_guard; run_guard;
    rewrite ?lookup_insert_ne, ?lookup_delete_ne by assumption; auto.
Qed.

End Coexistence.

Lemma other_guards_untouched_witness :
  let s := (Demo.web Demo.fullProvider,
            Demo.request true {[ "auth_api" := IdNum 2 ]} ∅ (Demo.store true) 0) in
  values (session (snd (perform Demo.platform (DoLogin "virk" false) s))) !! "auth_api"
  = Some (IdNum 2).
Proof.
  intros s.
  etransitivity;
    [exact (proj1 (other_guards_untouched _ _ Demo.platform
                     (DoLogin "virk" false) s "api" ltac:(discriminate)))|].
  reflexivity.
Defined.

Section Middleware.

Variables User DB : Type.
Context {truthyUser : Truthy User}.
Variable P : Platform.
Implicit Types (s : St User DB).

(** X19.  With a scheme other than the session scheme the middleware never calls
    [auth.check]: it is [next] and nothing else, also when the configuration
    names no authenticator and the scheme is looked up under
    "auth.undefined.scheme". *)
Theorem handle_other_scheme {S : Type} (Config : gmap string string)
    (auth_check : S -> Result bool * S) (next : S -> Result unit * S) :
  Config !! AuthInit.schemeKey (Config !! "auth.authenticator") <> Some "session" ->
  AuthInit.handle (AuthInit.constructor Config) auth_check next = next.
Proof.
  intros Hscheme. unfold AuthInit.handle, AuthInit.usesSession,
    AuthInit.constructor. cbn.
  destruct (Config !! AuthInit.schemeKey (Config !! "auth.authenticator"))
    as [sch|]; [|reflexivity].
  destruct (String.eqb_spec sch "session") as [->|_]; [congruence|reflexivity].
Qed.

(** X20.  With the session scheme and the session guard as [auth], the middleware
    never stops a request for lack of a login: either [next] has run, on the
    state [check] left, and its outcome is the outcome of the middleware, or
    [authenticate] failed with an error that is not the unauthorized one and
    that error is the outcome. *)
Theorem handle_session_scheme (self : AuthInit.t)
    (next : St User DB -> Result unit * St User DB) s r s' :
  AuthInit.usesSession self = true ->
  AuthInit.handle self (check P) next s = (r, s') ->
  (exists b s0, check P s = (Ok b, s0) /\ next s0 = (r, s'))
  \/ (exists e, r = Err e
                /\ instanceof_E_UNAUTHORIZED_ACCESS e = false
                /\ authenticate P s = (Err e, s')).
Proof.
  intros Huses. unfold AuthInit.handle. rewrite Huses.
  unfold check, try_catch, bind, ret, throw.
  destruct (authenticate P s) as [[u|e] s0] eqn:Hauth.
  - intros Hnext. left. now exists true, s0.
  - destruct (instanceof_E_UNAUTHORIZED_ACCESS e) eqn:He.
    + intros Hnext. left. now exists false, s0.
    + intros [= <- <-]. right. now exists e.
Qed.

End Middleware.

Lemma handle_other_scheme_witness :
  let Config : gmap string string :=
    {[ "auth.authenticator" := "jwt"; "auth.jwt.scheme" := "jwt" ]} in
  AuthInit.handle (AuthInit.constructor Config)
    (fun n : nat => (Err (OtherError "Error" "never called"), n))
    (fun n : nat => (Ok tt, S n)) 0%nat
  = (Ok tt, 1%nat).
Proof.
  intros Config.
  rewrite (handle_other_scheme Config); [reflexivity|].
  vm_compute. discriminate.
Defined.

Lemma handle_session_scheme_witness :
  let self := AuthInit.constructor
                {[ "auth.authenticator" := "session"; "auth.session.scheme" := "session" ]} in
  let s := (Demo.web Demo.fullProvider, Demo.request true ∅ ∅ (Demo.store true) 0) in
  let next := fun s0 : St Demo.User Demo.DB => (Ok tt, s0) in
  fst (AuthInit.handle self (check Demo.platform) next s) = Ok tt.
Proof.
  intros self s next.
  destruct (handle_session_scheme _ _ Demo.platform self next s
              (fst (AuthInit.handle self (check Demo.platform) next s))
              (snd (AuthInit.handle self (check Demo.platform) next s))
              eq_refl ltac:(vm_compute; reflexivity))
    as [Hran|Hfailed].
  - destruct Hran as (b & s0 & _ & Hnext).
    exact (eq_sym (f_equal fst Hnext)).
  - destruct Hfailed as (e & _ & Hkind & Hauth).
    vm_compute in Hauth. simplify_eq.
Defined.

Section Connection.

Variable Client : Type.
Implicit Types (self : LucidProvider.t Client).

(** X21.  A connection given through [setConnection] wins over the configured
    one: a non-empty name is passed as [connection], a query client as
    [client], and the options never carry both.  The empty name does not
    count as a connection, so the configured one is used. *)
Theorem setConnection_overrides self :
  (forall n, truthy_str n = true ->
      LucidProvider.getModelOptions
        (LucidProvider.setConnection (LucidProvider.ConnectionName n) self)
      = {| LucidProvider.optConnection := Some n; LucidProvider.optClient := None |})
  /\ (forall c,
      LucidProvider.getModelOptions
        (LucidProvider.setConnection (LucidProvider.ConnectionClient c) self)
      = {| LucidProvider.optConnection := None; LucidProvider.optClient := Some c |})
  /\ LucidProvider.getModelOptions
       (LucidProvider.setConnection (LucidProvider.ConnectionName EmptyString) self)
     = LucidProvider.getModelOptions
         {| LucidProvider.configConnection := LucidProvider.configConnection self;
            LucidProvider.connection := None |}
  /\ (LucidProvider.optConnection (LucidProvider.getModelOptions self) = None
      \/ LucidProvider.optClient (LucidProvider.getModelOptions self) = None).
Proof.
  split; [|split; [|split]].
  - intros n Hn. unfold LucidProvider.getModelOptions. cbn. now rewrite Hn.
  - intros c. reflexivity.
  - reflexivity.
  - unfold LucidProvider.getModelOptions.
    destruct (LucidProvider.connection self) as [[n|c]|]; cbn;
      repeat case_match; cbn; auto.
Qed.

End Connection.

Lemma setConnection_overrides_witness :
  LucidProvider.getModelOptions
    (LucidProvider.setConnection (LucidProvider.ConnectionName "replica")
       {| LucidProvider.configConnection := Some "primary";
          LucidProvider.connection := @None (LucidProvider.Connection unit) |})
  = {| LucidProvider.optConnection := Some "replica"; LucidProvider.optClient := None |}.
Proof.
  apply (proj1 (setConnection_overrides unit _) "replica"). reflexivity.
Defined.
